(** * WiFi portal of the poetry camera: a model of [wifi_portal/app.py]

    The development follows the Flask application function by function:
    the configuration store ([load_hotspot_config], [save_hotspot_config]),
    the connection attempt ([attempt_connect_hotspot]), the network list
    built by [index], and the [submit] route with its background retry
    loop [hotspot_scanning]; then the status query
    ([get_network_status], [status]), the whole [index] route, and the
    text wrapper [wrap_text] of [wraptext.py].

    Conventions.
    - Text is [string]; the [bytes] returned by [subprocess.run] are
      identified with the text they decode to.
    - [str.lower] is modelled on the ASCII letters; every pattern the
      program searches for is ASCII. White space, for [str.strip] and
      [str.split], is the ASCII white space of [str.isspace].
    - A Python [dict] with string keys is a [gmap string _], a Python
      [set] of strings a [gset string].
    - Time is counted in whole units (seconds) on a logical clock. *)

From Stdlib Require Import ZArith Lia Ascii String List.
From stdpp Require Import base option list strings gmap sets.
From Equations Require Import Equations.

Local Open Scope string_scope.

(** ** Text primitives *)

Module Text.

(** [c.lower()] for one character: the upper-case ASCII letters move
    down by 32, every other character is kept. *)
Definition lower_ascii (c : ascii) : ascii :=
  let n := nat_of_ascii c in
  if (65 <=? n)%nat && (n <=? 90)%nat then ascii_of_nat (n + 32) else c.

(** [s.lower()] *)
Fixpoint lower (s : string) : string :=
  match s with
  | EmptyString => EmptyString
  | String c s' => String (lower_ascii c) (lower s')
  end.

(** [pat in s]: [pat] occurs in [s] as a contiguous substring. *)
Fixpoint contains (pat s : string) : bool :=
  if String.prefix pat s then true
  else match s with
       | EmptyString => false
       | String _ s' => contains pat s'
       end.

(** Truth value of a string or bytes object: non-empty. *)
Definition truthy (s : string) : bool :=
  match s with
  | EmptyString => false
  | String _ _ => true
  end.

(** [s[n:]] *)
Fixpoint drop_chars (n : nat) (s : string) : string :=
  match n, s with
  | O, _ => s
  | S _, EmptyString => EmptyString
  | S n', String _ s' => drop_chars n' s'
  end.

End Text.

Import Text.

(** ** Exceptions and dynamically typed values *)

Inductive exn : Type :=
| AttributeError
| TypeError
| JSONDecodeError
| FileNotFoundError.

(** A Python computation either returns a value or raises. *)
Inductive outcome (A : Type) : Type :=
| Return (a : A)
| Raise (e : exn).

Arguments Return {A} a.
Arguments Raise {A} e.

#[global] Instance outcome_ret : MRet outcome := fun A a => Return a.

#[global] Instance outcome_bind : MBind outcome := fun A B k c =>
  match c with
  | Return a => k a
  | Raise e => Raise e
  end.

(** What [subprocess.run(..., capture_output=True)] returns. *)
Record CompletedProcess : Type := { stdout : string; stderr : string }.

(** The values that the variable [result] of [submit] can hold. *)
Inductive pyvalue : Type :=
| PyStr (s : string)
| PyCompleted (p : CompletedProcess).

(** A finished run as a value. *)
Definition completed (out err : string) : pyvalue :=
  PyCompleted {| stdout := out; stderr := err |}.

(** [v.stderr] and [v.stdout]: a [str] has neither attribute. *)
Definition attr_stderr (v : pyvalue) : outcome string :=
  match v with
  | PyCompleted p => Return (stderr p)
  | PyStr _ => Raise AttributeError
  end.

Definition attr_stdout (v : pyvalue) : outcome string :=
  match v with
  | PyCompleted p => Return (stdout p)
  | PyStr _ => Raise AttributeError
  end.

(** ** The configuration store *)

#[local] Set Warnings "-register-all".

(** JSON documents as [json.load] returns them. *)
Inductive json : Type :=
| JNull
| JBool (b : bool)
| JNumber (n : Z)
| JString (s : string)
| JArray (l : list json)
| JObject (o : gmap string json).

(** The content of a file that exists: the JSON document that its text
    denotes, or text that is not a JSON document. *)
Inductive file : Type :=
| Document (v : json)
| Garbage.

(** The library functions [json.dump] and [json.load]: what was dumped
    is what is loaded, and text that is no document is refused. *)
Definition json_dump (v : json) : file := Document v.

Definition json_load (f : file) : outcome json :=
  match f with
  | Document v => Return v
  | Garbage => Raise JSONDecodeError
  end.

(** The state of [config_file]; [None] when the file does not exist. *)
Definition store : Type := option file.

Definition load_hotspot_config (st : store) : outcome json :=
  match st with
  | Some f => json_load f
  | None => Return (JObject ∅)
  end.

(** Truth value of an optional string: [None] and [""] are false. *)
Definition truthy_opt (o : option string) : bool :=
  match o with
  | Some s => truthy s
  | None => false
  end.

(** The dictionary that [save_hotspot_config] builds. *)
Definition config (ssid : string) (password : option string) : gmap string json :=
  match password with
  | Some p =>
      if truthy p then <["password" := JString p]> {["ssid" := JString ssid]}
      else {["ssid" := JString ssid]}
  | None => {["ssid" := JString ssid]}
  end.

(** [open(config_file, "w")] truncates, [json.dump] writes the document. *)
Definition save_hotspot_config (st : store) (ssid : string) (password : option string) : store :=
  let config := config ssid password in
  Some (json_dump (JObject config)).

(** ** One connection attempt *)

Definition connection_command (ssid : string) (password : option string) : list string :=
  let connection_command := ["nmcli"; "--colors"; "no"; "device"; "wifi"; "connect"; ssid] in
  match password with
  | Some p =>
      if truthy p && (0 <? String.length p)%nat
      then connection_command ++ ["password"; p]
      else connection_command
  | None => connection_command
  end.

(** The string that [attempt_connect_hotspot] returns for a finished run. *)
Definition attempt_message (result : CompletedProcess) : string :=
  if truthy (stderr result) then "Error: " +:+ stderr result
  else if truthy (stdout result) then "Success: " +:+ stdout result
  else "Unknown error.".

(** [run] stands for [subprocess.run]; it raises when the tool cannot be
    executed at all. *)
Definition attempt_connect_hotspot (run : list string -> outcome CompletedProcess)
    (ssid : string) (password : option string) : outcome string :=
  result ← run (connection_command ssid password);
  Return (attempt_message result).

(** ** The network list of [index] *)

(** From [ssids_list], the lines of the scan output, to the set handed to
    the template. *)
Definition unique_ssids_list (ssids_list : list string) : gset string :=
  let ssids_list :=
    (fun ssid => drop_chars 5 ssid)
      <$> filter (fun ssid => contains "PoetryCameraSetup" ssid = false) ssids_list in
  list_to_set (filter (fun ssid => truthy ssid = true) ssids_list).

(** ** The reply of [submit] in immediate mode *)

Definition response_data0 : gmap string string :=
  <["message" := "Could not connect. Please try again."]> {["status" := "error"]}.

Definition set_message (m : string) (d : gmap string string) : gmap string string :=
  <["message" := m]> d.

(** The classification of [result], from [response_data = {...}] to the
    last [else]. *)
Definition respond (result : pyvalue) : outcome (gmap string string) :=
  let response_data := response_data0 in
  err ← attr_stderr result;
  if truthy err then
    let stderr_message := lower err in
    if contains "psk: property is invalid" stderr_message
    then Return (set_message "Wrong password" response_data)
    else Return (set_message stderr_message response_data)
  else
    out ← attr_stdout result;
    if truthy out then
      let stdout_message := lower out in
      if contains "successfully activated" stdout_message
      then Return (set_message out (<["status" := "success"]> response_data))
      else if contains "connection activation failed" stdout_message
      then Return (set_message "Connection activation failed." response_data)
      else if contains "no network with ssid" stdout_message
      then Return (set_message "Could not find a wifi network with the specified SSID." response_data)
      else if contains "no valid secrets" stdout_message
      then Return (set_message "Wrong password" response_data)
      else if contains "no suitable device found" stdout_message
      then Return (set_message "Could not connect. Possible hardware issue." response_data)
      else if contains "device not ready" stdout_message
      then Return (set_message "The device is not ready." response_data)
      else if contains "invalid password" stdout_message
      then Return (set_message "Wrong password" response_data)
      else if contains "could not be found or the password is incorrect" stdout_message
      then Return (set_message "The password is incorrect or the network could not be found." response_data)
      else Return (set_message out response_data)
    else Return response_data.

(** The two entries added after [get_network_status()]. *)
Definition add_network_status (status : string * string) (response_data : gmap string string)
    : gmap string string :=
  let '(internet_status, ssid) := status in
  <["ssid" := ssid]> (<["internet_status" := internet_status]> response_data).

(** Everything [submit] does with [result] in immediate mode. *)
Definition immediate_reply (status : string * string) (result : pyvalue)
    : outcome (gmap string string) :=
  response_data ← respond result;
  Return (add_network_status status response_data).

(** ** The background retry loop *)

Inductive ending : Type :=
| Connected
| TimedOut
| Crashed (e : exn).

(** What one run of [hotspot_scanning] did: the attempts in order, each
    with the time it started and what [attempt_connect_hotspot] gave, the
    time at which the function was left, and why. *)
Record session_log : Type := {
  attempts : list (nat * outcome string);
  finished_at : nat;
  ending_of : ending
}.

Definition record_attempt (a : nat * outcome string) (log : session_log) : session_log :=
  {| attempts := a :: attempts log;
     finished_at := finished_at log;
     ending_of := ending_of log |}.

Section Session.

(** The tool at the [k]-th attempt of the session, and how long that
    attempt keeps the thread busy. *)
Variable tool : nat -> list string -> outcome CompletedProcess.
Variable elapsed : nat -> nat.
Variables ssid password : string.

(** The [while] loop: [k] attempts were made so far, the clock shows
    [now]. *)
Equations? hotspot_scanning_loop (end_time k now : nat) : session_log
  by wf (end_time - now) lt :=
hotspot_scanning_loop end_time k now with le_lt_dec end_time now => {
  | left _ => {| attempts := []; finished_at := now; ending_of := TimedOut |};
  | right _ with attempt_connect_hotspot (tool k) ssid (Some password) => {
      | Raise e =>
          {| attempts := [(now, Raise e)];
             finished_at := now + elapsed k;
             ending_of := Crashed e |};
      | Return result with contains "Success" result => {
          | true =>
              {| attempts := [(now, Return result)];
                 finished_at := now + elapsed k;
                 ending_of := Connected |};
          | false =>
              record_attempt (now, Return result)
                (hotspot_scanning_loop end_time (S k) (now + elapsed k + 5)) } } }.
Proof. lia. Qed.

(** [hotspot_scanning()], entered when the clock shows [now]. *)
Definition hotspot_scanning (now : nat) : session_log :=
  let end_time := now + 120 in
  hotspot_scanning_loop end_time 0 now.

End Session.

(** ** Threads *)

Inductive thread_state : Type :=
| Alive
| Exited (r : outcome session_log).

(** A [threading.Thread] whose target is the closure [hotspot_scanning]
    of one [submit] call: the closure's [ssid] and [password], the
    positional arguments given to the thread, and its state. *)
Record thread : Type := {
  closure_ssid : string;
  closure_password : string;
  thread_args : list string;
  state : thread_state
}.

(** Calling [hotspot_scanning], which is declared without parameters,
    with the positional arguments [args]. *)
Definition call_hotspot_scanning (args : list string) (body : session_log)
    : outcome session_log :=
  match args with
  | [] => Return body
  | _ :: _ => Raise TypeError
  end.

(** [Thread.run]: the target is called with the thread's arguments. *)
Definition run_thread (tool : nat -> list string -> outcome CompletedProcess)
    (elapsed : nat -> nat) (now : nat) (t : thread) : thread :=
  {| closure_ssid := closure_ssid t;
     closure_password := closure_password t;
     thread_args := thread_args t;
     state := Exited (call_hotspot_scanning (thread_args t)
                (hotspot_scanning tool elapsed (closure_ssid t) (closure_password t) now)) |}.

Definition is_alive (t : thread) : bool :=
  match state t with
  | Alive => true
  | Exited _ => false
  end.

(** ** The [submit] route *)

Inductive event : Type :=
| Saved (st : store)
| ThreadStarted (t : thread)
| Ran (cmd : list string).

(** The process and its surroundings: the configuration file, the threads
    started so far, and what happened in order. *)
Record world : Type := {
  config_store : store;
  threads : list thread;
  journal : list event
}.

(** The process at its first start on a device: nothing was saved yet
    and no thread runs. On a later start the file of an earlier run is
    still there; [reachable_from] covers every starting state. *)
Definition initial_world : world :=
  {| config_store := None; threads := []; journal := [] |}.

Definition info_reply (ssid : string) : gmap string string :=
  <["message" :=
      "Attempting to connect to the " +:+ ssid +:+
      " network. If you are using a hotspot, go to your hotspot settings page and leave it open so it can connect. This could take up to 2 minutes."]>
    {["status" := "info"]}.

Section Submit.

(** [subprocess.run] on the connect command, and what
    [get_network_status()] returns. *)
Variable run : list string -> outcome CompletedProcess.
Variable network_status : string * string.

Definition submit (w : world) (ssid password : string) (manual_connect : option string)
    : world * outcome (gmap string string) :=
  if truthy_opt manual_connect then
    let st := save_hotspot_config (config_store w) ssid (Some password) in
    let t := {| closure_ssid := ssid; closure_password := password;
                thread_args := [ssid; password]; state := Alive |} in
    ({| config_store := st;
        threads := threads w ++ [t];
        journal := journal w ++ [Saved st; ThreadStarted t] |},
     Return (info_reply ssid))
  else
    ({| config_store := config_store w;
        threads := threads w;
        journal := journal w ++ [Ran (connection_command ssid (Some password))] |},
     result ← attempt_connect_hotspot run ssid (Some password);
     immediate_reply network_status (PyStr result)).

End Submit.

(** Number of session threads that were started and have not exited. *)
Definition active (w : world) : nat :=
  length (filter (fun t => is_alive t = true) (threads w)).

(** One step of the process: a request to [submit] is served, or a
    started thread runs its target. *)
Inductive step : world -> world -> Prop :=
| step_submit run network_status w ssid password manual_connect :
    step w (submit run network_status w ssid password manual_connect).1
| step_thread tool elapsed now w i t :
    threads w !! i = Some t ->
    is_alive t = true ->
    step w {| config_store := config_store w;
              threads := <[i := run_thread tool elapsed now t]> (threads w);
              journal := journal w |}.

Definition reachable (w : world) : Prop := rtc step initial_world w.


(** The commands that were run, in order. *)
Definition event_command (e : event) : option (list string) :=
  match e with
  | Ran cmd => Some cmd
  | Saved _ | ThreadStarted _ => None
  end.

Definition ran_commands (journal : list event) : list (list string) :=
  omap event_command journal.

(** The thread that a background request starts. *)
Definition session_thread (ssid password : string) : thread :=
  {| closure_ssid := ssid; closure_password := password;
     thread_args := [ssid; password]; state := Alive |}.

(** ** The classification table of the specification *)

Inductive ErrorKind : Type :=
| WrongPassword
| ActivationFailed
| NetworkNotFound
| NetworkNotFoundOrWrongPassword
| DeviceUnavailable
| DeviceNotReady
| Unclassified (raw : string)
| Unknown.

Inductive ConnectionOutcome : Type :=
| Success (raw : string)
| Failure (kind : ErrorKind).

(** The reply that stands for an outcome: its status and its message. *)
Definition render (o : ConnectionOutcome) : gmap string string :=
  match o with
  | Success raw => set_message raw (<["status" := "success"]> response_data0)
  | Failure WrongPassword => set_message "Wrong password" response_data0
  | Failure ActivationFailed => set_message "Connection activation failed." response_data0
  | Failure NetworkNotFound =>
      set_message "Could not find a wifi network with the specified SSID." response_data0
  | Failure NetworkNotFoundOrWrongPassword =>
      set_message "The password is incorrect or the network could not be found." response_data0
  | Failure DeviceUnavailable =>
      set_message "Could not connect. Possible hardware issue." response_data0
  | Failure DeviceNotReady => set_message "The device is not ready." response_data0
  | Failure (Unclassified raw) => set_message raw response_data0
  | Failure Unknown => response_data0
  end.

Inductive stream : Type := OnStdout | OnStderr.

Record rule : Type := {
  stream_of : stream;
  pattern : string;
  verdict : string -> ConnectionOutcome
}.

(** Rules 1 to 9 of the table, in its order. *)
Definition priority_table : list rule :=
  [ {| stream_of := OnStderr; pattern := "psk: property is invalid";
       verdict := fun _ => Failure WrongPassword |};
    {| stream_of := OnStdout; pattern := "successfully activated";
       verdict := Success |};
    {| stream_of := OnStdout; pattern := "connection activation failed";
       verdict := fun _ => Failure ActivationFailed |};
    {| stream_of := OnStdout; pattern := "no network with ssid";
       verdict := fun _ => Failure NetworkNotFound |};
    {| stream_of := OnStdout; pattern := "no valid secrets";
       verdict := fun _ => Failure WrongPassword |};
    {| stream_of := OnStdout; pattern := "no suitable device found";
       verdict := fun _ => Failure DeviceUnavailable |};
    {| stream_of := OnStdout; pattern := "device not ready";
       verdict := fun _ => Failure DeviceNotReady |};
    {| stream_of := OnStdout; pattern := "invalid password";
       verdict := fun _ => Failure WrongPassword |};
    {| stream_of := OnStdout; pattern := "could not be found or the password is incorrect";
       verdict := fun _ => Failure NetworkNotFoundOrWrongPassword |} ].

Definition select (s : stream) (out err : string) : string :=
  match s with
  | OnStdout => out
  | OnStderr => err
  end.

Definition rule_matches (out err : string) (r : rule) : bool :=
  contains (pattern r) (lower (select (stream_of r) out err)).

(** The table read as the specification words it: the first rule of 1 to
    9 that matches wins, whatever the other stream holds; rules 10 to 12
    follow. *)
Definition table_classify (out err : string) : ConnectionOutcome :=
  match List.find (rule_matches out err) priority_table with
  | Some r => verdict r (select (stream_of r) out err)
  | None =>
      if truthy err then Failure (Unclassified err)
      else if truthy out then Failure (Unclassified out)
      else Failure Unknown
  end.



(** ** The network list as the specification words it *)

(** The setup network is excluded by its exact name; empty names are
    dropped. *)
Definition exact_match_networks (ssids_list : list string) : gset string :=
  list_to_set
    (filter (fun ssid => ssid <> "PoetryCameraSetup" /\ truthy ssid = true)
       ((fun line => drop_chars 5 line) <$> ssids_list)).

(** ** The timetable of a session *)

(** The time at which attempt [k] of a session entered at [t0] starts
    when the attempts before it failed: five units after the previous
    attempt came back. *)
Fixpoint start_at (elapsed : nat -> nat) (t0 k : nat) : nat :=
  match k with
  | O => t0
  | S k' => start_at elapsed t0 k' + elapsed k' + 5
  end.

(** Attempt [k] comes back with a text in which the loop does not find
    "Success", respectively finds it. *)
Definition fails (tool : nat -> list string -> outcome CompletedProcess)
    (ssid password : string) (k : nat) : Prop :=
  exists result, attempt_connect_hotspot (tool k) ssid (Some password) = Return result
                 /\ contains "Success" result = false.

Definition succeeds (tool : nat -> list string -> outcome CompletedProcess)
    (ssid password : string) (k : nat) : Prop :=
  exists result, attempt_connect_hotspot (tool k) ssid (Some password) = Return result
                 /\ contains "Success" result = true.

(** The times at which the attempts of a run started. *)
Definition starts (log : session_log) : list nat := fst <$> attempts log.

(** A tool that never finds the network and says so on stderr. *)
Definition tool_not_found (k : nat) (cmd : list string) : outcome CompletedProcess :=
  Return {| stdout := ""; stderr := "Error: No network with SSID 'HomeNet' found." |}.

(** ** Splitting and stripping text *)

Definition newline : ascii := "010"%char.

(** [s.split(sep)] for a one-character separator: the pieces between
    the separators, at least one piece. *)
Fixpoint split_on (sep : ascii) (s : string) : list string :=
  match s with
  | EmptyString => [EmptyString]
  | String c s' =>
      if Ascii.eqb c sep then EmptyString :: split_on sep s'
      else match split_on sep s' with
           | piece :: pieces => String c piece :: pieces
           | [] => [String c EmptyString]
           end
  end.

(** White space as [str.strip] and [str.split] see it among the ASCII
    characters: tab to carriage return, the four separators 28 to 31, and
    the blank. *)
Definition is_space (c : ascii) : bool :=
  let n := nat_of_ascii c in
  ((9 <=? n)%nat && (n <=? 13)%nat) || ((28 <=? n)%nat && (n <=? 32)%nat).

Fixpoint lstrip (s : string) : string :=
  match s with
  | EmptyString => EmptyString
  | String c s' => if is_space c then lstrip s' else s
  end.

Fixpoint rstrip (s : string) : string :=
  match s with
  | EmptyString => EmptyString
  | String c s' =>
      match rstrip s' with
      | EmptyString => if is_space c then EmptyString else String c EmptyString
      | r => String c r
      end
  end.

(** [s.strip()] *)
Definition strip (s : string) : string := rstrip (lstrip s).

(** ** The connectivity status *)

Definition WIFI_DEVICE : string := "wlan1".

Definition status_command : list string :=
  ["nmcli"; "-t"; "-f"; "device,active,ssid"; "device"; "wifi"].

(** The [for] loop of [get_network_status] over the lines of the output.
    An exception inside the [try] leaves both variables as they were set
    at the start, which is what the [except] clause then returns. *)
Fixpoint scan_status (ssid_output : list string) : string * string :=
  match ssid_output with
  | [] => ("offline", "")
  | line :: rest =>
      if String.prefix (WIFI_DEVICE +:+ ":yes:") line then
        match split_on ":" line !! 2%nat with
        | Some ssid => ("online", ssid)
        | None => ("offline", "")
        end
      else scan_status rest
  end.

Definition get_network_status (run : list string -> outcome CompletedProcess)
    : string * string :=
  match run status_command with
  | Return ssid_result =>
      let ssid_output := split_on newline (strip (stdout ssid_result)) in
      scan_status ssid_output
  | Raise _ => ("offline", "")
  end.

(** The [/status] route. *)
Definition status (run : list string -> outcome CompletedProcess) : gmap string string :=
  let '(internet_status, ssid) := get_network_status run in
  <["ssid" := ssid]> {["status" := internet_status]}.

(** ** The [index] route *)

Definition scan_command : list string :=
  ["nmcli"; "--colors"; "no"; "-m"; "multiline"; "--get-value"; "SSID";
   "dev"; "wifi"; "list"; "ifname"; WIFI_DEVICE].

(** What [subprocess.check_output] does: it returns the output, raises
    CalledProcessError (with the text that [str] gives for it) when the
    tool exits with an error, or raises something else when the tool
    cannot be run. *)
Inductive checked_output : Type :=
| Output (text : string)
| CalledProcessError (message : string)
| OtherError (e : exn).

(** What the template is given. *)
Record page : Type := {
  page_ssids_list : gset string;
  page_version : string;
  page_internet_status : string;
  page_ssid : string;
  page_online_icon : string;
  page_offline_icon : string;
  page_loading_icon : string;
  page_refresh_icon : string
}.

(** The reply of [index]: plain text or the rendered template. *)
Inductive index_reply : Type :=
| PlainText (text : string)
| Rendered (p : page).

Definition index (check_output : list string -> checked_output)
    (run : list string -> outcome CompletedProcess) (version_info : string)
    : outcome index_reply :=
  match check_output scan_command with
  | CalledProcessError e =>
      Return (PlainText
        ("Error: Unable to retrieve WiFi networks. Likely a wifi adapter issue. " +:+ e))
  | OtherError e => Raise e
  | Output result =>
      let ssids_list := split_on newline result in
      let unique_ssids_list := unique_ssids_list ssids_list in
      let '(internet_status, ssid) := get_network_status run in
      Return (Rendered
        {| page_ssids_list := unique_ssids_list;
           page_version := version_info;
           page_internet_status := internet_status;
           page_ssid := ssid;
           page_online_icon := "/static/icon/wifi-online.svg";
           page_offline_icon := "/static/icon/wifi-offline.svg";
           page_loading_icon := "/static/icon/loading.svg";
           page_refresh_icon := "/static/icon/refresh.svg" |})
  end.

(** The output of the scan for a list of network names, one
    [SSID:name] line each. *)
Definition scan_output (names : list string) : string :=
  foldr (fun name rest => "SSID:" +:+ name +:+ String newline rest) "" names.

(** ** Serving requests in a row *)

Record request : Type := {
  req_ssid : string;
  req_password : string;
  req_manual_connect : option string
}.

Definition serve (run : list string -> outcome CompletedProcess)
    (network_status : string * string) (w : world) (requests : list request) : world :=
  foldl (fun w r =>
           (submit run network_status w (req_ssid r) (req_password r)
              (req_manual_connect r)).1)
        w requests.

(** The last request in background mode, if there is one. *)
Definition last_background (requests : list request) : option request :=
  last (filter (fun r => truthy_opt (req_manual_connect r) = true) requests).

(** ** The text wrapper of [wraptext.py] *)

(** [len(s)] *)
Definition len (s : string) : Z := Z.of_nat (String.length s).

(** A word is kept only when it is not empty. *)
Definition cons_word (w : string) (ws : list string) : list string :=
  match w with
  | EmptyString => ws
  | String _ _ => w :: ws
  end.

(** The word that [s] starts with (empty when [s] starts with white
    space) and the words after it. *)
Fixpoint split_ws (s : string) : string * list string :=
  match s with
  | EmptyString => (EmptyString, [])
  | String c s' =>
      let '(w, ws) := split_ws s' in
      if is_space c then (EmptyString, cons_word w ws) else (String c w, ws)
  end.

(** [s.split()]: the words of [s], separated by runs of white space. *)
Definition split_words (s : string) : list string :=
  let '(w, ws) := split_ws s in cons_word w ws.

Definition indent : string := "   ".

Definition indent_length : Z := len indent.

(** The variables of [wrap_text] inside the loop over the words. *)
Record wrap_state : Type := {
  wrapped_text : string;
  current_line : string;
  line_start : bool
}.

(** What is added to [wrapped_text] when [current_line] is finished. *)
Definition finished_line (st : wrap_state) : string :=
  if line_start st then strip (current_line st) +:+ String newline ""
  else indent +:+ strip (current_line st) +:+ String newline "".

(** The body of the loop over the words. *)
Definition wrap_word (line_length : Z) (st : wrap_state) (word : string) : wrap_state :=
  let adjusted_line_length :=
    if line_start st then line_length else (line_length - indent_length)%Z in
  if (len (current_line st) + len word <=? adjusted_line_length)%Z then
    {| wrapped_text := wrapped_text st;
       current_line := current_line st +:+ word +:+ " ";
       line_start := line_start st |}
  else
    {| wrapped_text := wrapped_text st +:+ finished_line st;
       current_line := word +:+ " ";
       line_start := false |}.

(** The body of the loop over the lines. *)
Definition wrap_line (line_length : Z) (wrapped : string) (line : string) : string :=
  let words := split_words line in
  let st := foldl (wrap_word line_length)
              {| wrapped_text := wrapped; current_line := ""; line_start := true |}
              words in
  wrapped_text st +:+ finished_line st.

Definition wrap_text (text : string) (line_length : Z) : string :=
  let lines := split_on newline text in
  foldl (wrap_line line_length) "" lines.

(** The lines [ls], each followed by a newline. *)
Definition unlines (ls : list string) : string :=
  foldr (fun l rest => l +:+ String newline rest) "" ls.

(** Some character of [s] is white space. *)
Fixpoint has_space (s : string) : bool :=
  match s with
  | EmptyString => false
  | String c s' => is_space c || has_space s'
  end.

(** A word: not empty and without white space. *)
Definition wordlike (w : string) : Prop := w <> "" /\ has_space w = false.

Definition no_newline (s : string) : Prop := contains (String newline "") s = false.

(** The line that [finished_line] ends with a newline. *)
Definition flushed (st : wrap_state) : string :=
  if line_start st then strip (current_line st) else indent +:+ strip (current_line st).

(** The text wrapped so far is the whole lines [ls], and the line in
    the making is empty or ends with a blank. *)
Definition wrap_inv (st : wrap_state) (ls : list string) : Prop :=
  wrapped_text st = unlines ls
  /\ Forall no_newline ls
  /\ no_newline (current_line st)
  /\ (current_line st = "" \/ exists body, current_line st = body +:+ " ").

(** The lines so far and the line in the making keep to the length. *)
Definition wrap_bound (line_length : Z) (st : wrap_state) (ls : list string) : Prop :=
  Forall (fun l => (len l <= line_length)%Z) ls
  /\ (len (strip (current_line st))
      <= if line_start st then line_length else line_length - 3)%Z.

(** * Properties *)

(** ** Text *)

Example lower_ex :
  lower "Error: PSK: Property is INVALID" = "error: psk: property is invalid".
Proof. reflexivity. Qed.

Example contains_ex :
  contains "psk: property" "802-11-wireless-security.psk: property is invalid" = true.
Proof. reflexivity. Qed.



Lemma truthy_false (s : string) : truthy s = false -> s = "".
Proof. destruct s; [reflexivity | discriminate]. Qed.

Lemma truthy_true (s : string) : truthy s = true <-> s <> "".
Proof. destruct s; simpl; split; congruence. Qed.

Lemma prefix_refl (p : string) : String.prefix p p = true.
Proof.
  induction p as [|c p IH]; simpl; [reflexivity|].
  destruct (Ascii.ascii_dec c c); [exact IH | contradiction].
Qed.

Lemma contains_refl (p : string) : contains p p = true.
Proof. destruct p; simpl; [reflexivity|]. rewrite prefix_refl.
  destruct (Ascii.ascii_dec a a); [reflexivity | contradiction]. Qed.

Lemma contains_tail (p : string) (c : ascii) (s : string) :
  contains p s = true -> contains p (String c s) = true.
Proof.
  intros H. change (contains p (String c s))
    with (if String.prefix p (String c s) then true else contains p s).
  rewrite H. destruct (String.prefix p (String c s)); reflexivity.
Qed.

(** A text found after the first [n] characters is found in the whole. *)
Lemma contains_drop_chars (p : string) (n : nat) (s : string) :
  contains p (drop_chars n s) = true -> contains p s = true.
Proof.
  revert s. induction n as [|n IH]; intros s H; [exact H|].
  destruct s as [|c s]; [exact H|].
  apply contains_tail, IH, H.
Qed.

(** ** Classification of the tool's output *)

Example classify_psk :
  respond (completed "" "Error: 802-11-wireless-security.psk: property is invalid")
  = Return (render (Failure WrongPassword)).
Proof. reflexivity. Qed.

Example classify_activated :
  respond (completed "Connection successfully activated" "")
  = Return (render (Success "Connection successfully activated")).
Proof. reflexivity. Qed.

(** With an empty stderr, the reply is the table's verdict on stdout. *)
Lemma respond_stdout (out : string) :
  respond (completed out "") = Return (render (table_classify out "")).
Proof.
  unfold respond, completed, table_classify, priority_table, rule_matches.
  cbn [attr_stderr attr_stdout stderr stdout mbind outcome_bind truthy
       List.find stream_of pattern verdict select].
  change (contains "psk: property is invalid" (lower "")) with false.
  cbv iota.
  destruct (truthy out) eqn:Hout.
  - repeat match goal with
           | |- context [contains ?p (lower out)] =>
               destruct (contains p (lower out)); [reflexivity|]
           end.
    reflexivity.
  - apply truthy_false in Hout. subst out. reflexivity.
Qed.

(** With a non-empty stderr, the reply depends on stderr alone. *)
Lemma respond_stderr (out err : string) :
  truthy err = true ->
  respond (completed out err)
  = Return (render (if contains "psk: property is invalid" (lower err)
                    then Failure WrongPassword
                    else Failure (Unclassified (lower err)))).
Proof.
  intros Herr. unfold respond, completed.
  cbn [attr_stderr stderr mbind outcome_bind]. rewrite Herr.
  destruct (contains _ (lower err)); reflexivity.
Qed.


(** Whatever a finished run printed, the reply is the rendering of some
    outcome. *)
Lemma respond_renders (out err : string) :
  exists o : ConnectionOutcome, respond (completed out err) = Return (render o).
Proof.
  destruct (truthy err) eqn:Herr.
  - eexists. apply respond_stderr, Herr.
  - apply truthy_false in Herr. subst err. eexists. apply respond_stdout.
Qed.



(** ** Immediate mode of [submit] *)

(** The string that [attempt_connect_hotspot] returns has no [stderr]. *)
Lemma respond_str (s : string) : respond (PyStr s) = Raise AttributeError.
Proof. reflexivity. Qed.

(** C2, on the program: an immediate [submit] never returns a reply.
    When the tool ran, the attribute lookup on the returned string raises
    AttributeError; when the tool could not be run, its exception passes
    through. *)
Theorem submit_immediate_raises (run : list string -> outcome CompletedProcess)
    (network_status : string * string) (w : world) (ssid password : string) :
  (submit run network_status w ssid password None).2
  = match run (connection_command ssid (Some password)) with
    | Return _ => Raise AttributeError
    | Raise e => Raise e
    end.
Proof.
  unfold submit, attempt_connect_hotspot. cbn [truthy_opt snd mbind outcome_bind].
  destruct (run _); reflexivity.
Qed.

Example submit_immediate_ex :
  (submit (fun _ => Return {| stdout := "Connection successfully activated"; stderr := "" |})
     ("online", "HomeNet") initial_world "HomeNet" "secret" None).2
  = Raise AttributeError.
Proof. reflexivity. Qed.

(** ** The configuration store *)

Lemma load_after_save (st : store) (ssid : string) (password : option string) :
  load_hotspot_config (save_hotspot_config st ssid password)
  = Return (JObject (config ssid password)).
Proof. reflexivity. Qed.

(** C4, as amended: [load_hotspot_config] returns the record last saved
    when there is one, and the empty record (not found) when the file does
    not exist; a file that holds no JSON document is not treated as
    absent: the decoding error is raised to the caller. *)
Theorem load_hotspot_config_cases :
  load_hotspot_config None = Return (JObject ∅)
  /\ (forall v : json, load_hotspot_config (Some (Document v)) = Return v)
  /\ (forall (st : store) (ssid : string) (password : option string),
        load_hotspot_config (save_hotspot_config st ssid password)
        = Return (JObject (config ssid password)))
  /\ load_hotspot_config (Some Garbage) = Raise JSONDecodeError.
Proof. repeat split. Qed.

(** C4, as stated, fails: a corrupt file raises where a missing file
    gives the empty record. *)
Lemma load_corrupt_raises :
  load_hotspot_config (Some Garbage) = Raise JSONDecodeError
  /\ load_hotspot_config (Some Garbage) <> load_hotspot_config None.
Proof. split; [reflexivity | discriminate]. Qed.

(** C9: round trip of the store. Nothing saved yet: the empty record.
    A save with a non-empty credential, then a load: the record with
    exactly the two fields. A second identical save changes nothing, and
    a save replaces whatever the store held. *)
Theorem save_load_round_trip (st : store) (ssid password : string) :
  truthy password = true ->
  load_hotspot_config (config_store initial_world) = Return (JObject ∅)
  /\ load_hotspot_config (save_hotspot_config st ssid (Some password))
     = Return (JObject (<["password" := JString password]> {["ssid" := JString ssid]}))
  /\ save_hotspot_config (save_hotspot_config st ssid (Some password)) ssid (Some password)
     = save_hotspot_config st ssid (Some password)
  /\ load_hotspot_config
       (save_hotspot_config (save_hotspot_config st ssid (Some password)) ssid (Some password))
     = Return (JObject (<["password" := JString password]> {["ssid" := JString ssid]}))
  /\ dom (config ssid (Some password)) = ({["ssid"; "password"]} : gset string)
  /\ forall st' : store,
       save_hotspot_config st ssid (Some password) = save_hotspot_config st' ssid (Some password).
Proof.
  intros Hp. unfold save_hotspot_config, load_hotspot_config, config. rewrite Hp.
  repeat split.
Qed.

Lemma save_load_round_trip_witness :
  truthy "secret" = true
  /\ load_hotspot_config (save_hotspot_config None "HomeNet" (Some "secret"))
     = Return (JObject (<["password" := JString "secret"]> {["ssid" := JString "HomeNet"]})).
Proof.
  split; [reflexivity|].
  apply (save_load_round_trip None "HomeNet" "secret"). reflexivity.
Defined.

(** ** Empty credential *)

(** C10: an empty password is handled as no password. The saved record
    has the ssid field only, and the connect command has no password
    argument, so the attempt is the same. *)
Theorem empty_password_is_absent (st : store) (ssid : string)
    (run : list string -> outcome CompletedProcess) :
  save_hotspot_config st ssid (Some "") = save_hotspot_config st ssid None
  /\ save_hotspot_config st ssid (Some "") = Some (Document (JObject {["ssid" := JString ssid]}))
  /\ config ssid (Some "") !! "password" = None
  /\ dom (config ssid (Some "")) = ({["ssid"]} : gset string)
  /\ connection_command ssid (Some "") = connection_command ssid None
  /\ connection_command ssid (Some "")
     = ["nmcli"; "--colors"; "no"; "device"; "wifi"; "connect"; ssid]
  /\ attempt_connect_hotspot run ssid (Some "") = attempt_connect_hotspot run ssid None.
Proof.
  repeat split.
Qed.

Example nonempty_password_command :
  connection_command "HomeNet" (Some "secret")
  = ["nmcli"; "--colors"; "no"; "device"; "wifi"; "connect"; "HomeNet"; "password"; "secret"].
Proof. reflexivity. Qed.

(** ** The network list *)

Example unique_ssids_list_ex :
  unique_ssids_list ["SSID:HomeNet"; "SSID:PoetryCameraSetup"; "SSID:HomeNet"; "SSID:"]
  = {["HomeNet"]}.
Proof. reflexivity. Qed.

Lemma elem_of_unique_ssids_list (ssids_list : list string) (x : string) :
  x ∈ unique_ssids_list ssids_list
  <-> x <> ""
      /\ exists line, line ∈ ssids_list
                      /\ contains "PoetryCameraSetup" line = false
                      /\ x = drop_chars 5 line.
Proof.
  unfold unique_ssids_list.
  rewrite elem_of_list_to_set, list_elem_of_filter, list_elem_of_fmap, truthy_true.
  split.
  - intros [Hx (line & -> & Hl)]. apply list_elem_of_filter in Hl as [Hc Hl].
    split; [exact Hx|]. exists line. auto.
  - intros [Hx (line & Hl & Hc & ->)]. split; [exact Hx|].
    exists line. split; [reflexivity|]. apply list_elem_of_filter. auto.
Qed.

(** C5, as amended: a scan line is dropped when it contains the setup
    network's name anywhere (so the setup network never shows, nor does
    any network whose name contains that name); of the other lines the
    first five characters are cut off, empty names are removed and equal
    names are listed once. *)
Theorem unique_ssids_list_spec :
  (forall (ssids_list : list string) (x : string),
      x ∈ unique_ssids_list ssids_list
      <-> x <> ""
          /\ exists line, line ∈ ssids_list
                          /\ contains "PoetryCameraSetup" line = false
                          /\ x = drop_chars 5 line)
  /\ (forall (ssids_list : list string) (x : string),
        x ∈ unique_ssids_list ssids_list -> contains "PoetryCameraSetup" x = false)
  /\ (forall ssids_list : list string, "PoetryCameraSetup" ∉ unique_ssids_list ssids_list)
  /\ (forall ssids_list : list string, NoDup (elements (unique_ssids_list ssids_list)))
  /\ unique_ssids_list ["SSID:HomeNet"; "SSID:PoetryCameraSetup"; "SSID:HomeNet"; "SSID:"]
     = {["HomeNet"]}.
Proof.
  assert (Hno : forall (l : list string) (x : string),
             x ∈ unique_ssids_list l -> contains "PoetryCameraSetup" x = false).
  { intros l x Hx. apply elem_of_unique_ssids_list in Hx as [_ (line & _ & Hc & ->)].
    destruct (contains "PoetryCameraSetup" (drop_chars 5 line)) eqn:Hd; [|reflexivity].
    apply contains_drop_chars in Hd. congruence. }
  split; [exact elem_of_unique_ssids_list|].
  split; [exact Hno|].
  split; [|split; [|reflexivity]].
  - intros l Hin. apply Hno in Hin. discriminate Hin.
  - intros l. apply NoDup_elements.
Qed.

(** C5, as stated, fails: a network whose name only contains the setup
    network's name is dropped too, and a name made of blanks stays. *)
Lemma substring_match_drops_other_networks :
  unique_ssids_list ["SSID:PoetryCameraSetup2"] = ∅
  /\ exact_match_networks ["SSID:PoetryCameraSetup2"] = {["PoetryCameraSetup2"]}
  /\ unique_ssids_list ["SSID:PoetryCameraSetup2"]
     <> exact_match_networks ["SSID:PoetryCameraSetup2"]
  /\ unique_ssids_list ["SSID: "] = {[" "]}.
Proof.
  split; [reflexivity|]. split; [reflexivity|]. split; [|reflexivity].
  intros H.
  assert (Hin : "PoetryCameraSetup2" ∈ exact_match_networks ["SSID:PoetryCameraSetup2"])
    by (vm_compute; reflexivity).
  rewrite <- H in Hin. vm_compute in Hin. discriminate Hin.
Qed.

(** ** Background mode of [submit] *)

Section BackgroundSubmit.

Variable run : list string -> outcome CompletedProcess.
Variable network_status : string * string.
Variables (w : world) (ssid password : string) (manual_connect : option string).

Lemma submit_background :
  truthy_opt manual_connect = true ->
  submit run network_status w ssid password manual_connect
  = ({| config_store := save_hotspot_config (config_store w) ssid (Some password);
        threads := threads w
                   ++ [{| closure_ssid := ssid; closure_password := password;
                          thread_args := [ssid; password]; state := Alive |}];
        journal := journal w
                   ++ [Saved (save_hotspot_config (config_store w) ssid (Some password));
                       ThreadStarted
                         {| closure_ssid := ssid; closure_password := password;
                            thread_args := [ssid; password]; state := Alive |}] |},
     Return (info_reply ssid)).
Proof. intros H. unfold submit. rewrite H. reflexivity. Qed.

Lemma submit_immediate_world :
  truthy_opt manual_connect = false ->
  (submit run network_status w ssid password manual_connect).1
  = {| config_store := config_store w;
       threads := threads w;
       journal := journal w ++ [Ran (connection_command ssid (Some password))] |}.
Proof. intros H. unfold submit. rewrite H. reflexivity. Qed.

End BackgroundSubmit.

Lemma active_app (w : world) (ts : list thread) (t : thread) :
  threads w = (ts ++ [t])%list -> is_alive t = true ->
  active w = S (length (filter (fun t => is_alive t = true) ts)).
Proof.
  intros Hw Ht. unfold active. rewrite Hw, filter_app, length_app.
  rewrite filter_cons_True by exact Ht. simpl. lia.
Qed.

(** C6, as amended: the program keeps no record of running sessions. A
    background [submit] is never refused and never stops an earlier
    thread: it starts one more thread next to those already there, so the
    number of live session threads grows by one each time. *)
Theorem submit_adds_session (run : list string -> outcome CompletedProcess)
    (network_status : string * string) (w : world) (ssid password : string)
    (manual_connect : option string) :
  truthy_opt manual_connect = true ->
  let w' := (submit run network_status w ssid password manual_connect).1 in
  (submit run network_status w ssid password manual_connect).2 = Return (info_reply ssid)
  /\ (exists t, threads w' = (threads w ++ [t])%list /\ is_alive t = true)
  /\ active w' = S (active w).
Proof.
  intros H. cbv zeta. rewrite submit_background by exact H. cbn [fst snd].
  split; [reflexivity|]. split.
  - eexists. split; reflexivity.
  - erewrite active_app; [reflexivity | reflexivity | reflexivity].
Qed.

Lemma submit_adds_session_witness :
  truthy_opt (Some "1") = true
  /\ active (submit (fun _ => Raise FileNotFoundError) ("offline", "")
               initial_world "HomeNet" "secret" (Some "1")).1
     = S (active initial_world).
Proof.
  split; [reflexivity|].
  apply (submit_adds_session (fun _ => Raise FileNotFoundError) ("offline", "")
           initial_world "HomeNet" "secret" (Some "1")).
  reflexivity.
Defined.

(** C6, as stated, fails: two background requests in a row leave two
    live session threads. *)
Lemma two_sessions_at_once :
  let run := fun _ : list string => Raise FileNotFoundError in
  let w1 := (submit run ("offline", "") initial_world "HomeNet" "secret" (Some "1")).1 in
  let w2 := (submit run ("offline", "") w1 "HomeNet" "secret" (Some "1")).1 in
  reachable w1 /\ active w1 = 1 /\ reachable w2 /\ active w2 = 2.
Proof.
  cbv zeta.
  assert (H1 : reachable (submit (fun _ => Raise FileNotFoundError) ("offline", "")
                            initial_world "HomeNet" "secret" (Some "1")).1).
  { eapply rtc_l; [apply step_submit | apply rtc_refl]. }
  split; [exact H1|]. split; [reflexivity|]. split; [|reflexivity].
  eapply rtc_r; [exact H1 | apply step_submit].
Qed.

(** Every thread that [submit] starts is given two arguments for a
    target that takes none: when it runs, the call raises TypeError and no
    attempt is made. *)
Lemma started_thread_raises (tool : nat -> list string -> outcome CompletedProcess)
    (elapsed : nat -> nat) (now : nat) (ssid password : string) :
  state (run_thread tool elapsed now
           {| closure_ssid := ssid; closure_password := password;
              thread_args := [ssid; password]; state := Alive |})
  = Exited (Raise TypeError).
Proof. reflexivity. Qed.

(** C3, on the program: the retry session that a background [submit]
    starts never retries. The thread is the only caller of
    [hotspot_scanning] and gives it the two arguments (ssid, password),
    which the function does not take: whenever the thread runs, whatever
    the tool would do and however long it would take, the call raises
    TypeError and the thread ends without a single attempt. *)
Theorem background_session_never_attempts
    (run : list string -> outcome CompletedProcess) (network_status : string * string)
    (w : world) (ssid password : string) (manual_connect : option string)
    (tool : nat -> list string -> outcome CompletedProcess) (elapsed : nat -> nat)
    (now : nat) :
  truthy_opt manual_connect = true ->
  exists t,
    threads (submit run network_status w ssid password manual_connect).1
    = (threads w ++ [t])%list
    /\ thread_args t = [ssid; password]
    /\ call_hotspot_scanning (thread_args t)
         (hotspot_scanning tool elapsed (closure_ssid t) (closure_password t) now)
       = Raise TypeError
    /\ state (run_thread tool elapsed now t) = Exited (Raise TypeError).
Proof.
  intros H. rewrite submit_background by exact H. cbn [fst threads].
  eexists. split; [reflexivity|]. repeat split.
Qed.

Lemma background_session_never_attempts_witness :
  truthy_opt (Some "1") = true
  /\ exists t,
       threads (submit (fun _ => Raise FileNotFoundError) ("offline", "")
                  initial_world "HomeNet" "secret" (Some "1")).1
       = (threads initial_world ++ [t])%list
       /\ thread_args t = ["HomeNet"; "secret"]
       /\ call_hotspot_scanning (thread_args t)
            (hotspot_scanning tool_not_found (fun _ => 0)
               (closure_ssid t) (closure_password t) 0)
          = Raise TypeError
       /\ state (run_thread tool_not_found (fun _ => 0) 0 t) = Exited (Raise TypeError).
Proof.
  split; [reflexivity|].
  apply (background_session_never_attempts (fun _ => Raise FileNotFoundError) ("offline", "")
           initial_world "HomeNet" "secret" (Some "1") tool_not_found (fun _ => 0) 0).
  reflexivity.
Defined.

(** C7, as amended: in background mode the reply has status info and a
    message that names the network and explains the wait, and these are
    its only two fields; the reply that immediate mode builds from a
    finished run of the tool has the four fields status (success or
    error), message, internet_status and ssid. *)
Theorem submit_reply_fields :
  (forall (run : list string -> outcome CompletedProcess) (network_status : string * string)
          (w : world) (ssid password : string) (manual_connect : option string),
      truthy_opt manual_connect = true ->
      exists r : gmap string string,
        (submit run network_status w ssid password manual_connect).2 = Return r
        /\ r !! "status" = Some "info"
        /\ r !! "message" = Some
             ("Attempting to connect to the " +:+ ssid +:+
              " network. If you are using a hotspot, go to your hotspot settings page and leave it open so it can connect. This could take up to 2 minutes.")
        /\ dom r = ({["status"; "message"]} : gset string))
  /\ (forall (network_status : string * string) (p : CompletedProcess),
        exists r : gmap string string,
          immediate_reply network_status (PyCompleted p) = Return r
          /\ dom r = ({["status"; "message"; "internet_status"; "ssid"]} : gset string)
          /\ (r !! "status" = Some "success" \/ r !! "status" = Some "error")
          /\ r !! "internet_status" = Some network_status.1
          /\ r !! "ssid" = Some network_status.2).
Proof.
  split.
  - intros run ns w ssid password mc H. rewrite submit_background by exact H.
    exists (info_reply ssid). repeat split.
  - intros [internet_status ssid] [out err].
    destruct (respond_renders out err) as (o & Ho).
    unfold immediate_reply. fold (completed out err). rewrite Ho.
    eexists. split; [reflexivity|].
    destruct o as [raw | []]; repeat split; auto.
Qed.

Lemma submit_reply_fields_witness :
  truthy_opt (Some "1") = true
  /\ exists r : gmap string string,
       (submit (fun _ => Raise FileNotFoundError) ("offline", "")
          initial_world "HomeNet" "secret" (Some "1")).2 = Return r
       /\ r !! "status" = Some "info"
       /\ r !! "message" = Some
            ("Attempting to connect to the " +:+ "HomeNet" +:+
             " network. If you are using a hotspot, go to your hotspot settings page and leave it open so it can connect. This could take up to 2 minutes.")
       /\ dom r = ({["status"; "message"]} : gset string).
Proof.
  split; [reflexivity|].
  apply (proj1 submit_reply_fields (fun _ => Raise FileNotFoundError) ("offline", "")
           initial_world "HomeNet" "secret" (Some "1")).
  reflexivity.
Defined.

(** C7, as stated, fails: the background reply has neither the network
    name field nor the connectivity field. *)
Lemma background_reply_lacks_fields :
  exists r : gmap string string,
    (submit (fun _ => Raise FileNotFoundError) ("offline", "")
       initial_world "HomeNet" "secret" (Some "1")).2 = Return r
    /\ r !! "ssid" = None
    /\ r !! "internet_status" = None
    /\ dom r = ({["status"; "message"]} : gset string).
Proof. eexists. repeat split. Qed.

(** C8: persistence depends on the mode. A background [submit] writes
    the record for (ssid, password) to the store and only then starts the
    thread: the stored record has the ssid under "ssid", the password
    under "password" when it is not empty, and no other field. An
    immediate [submit] leaves the store as it was. *)
Theorem persistence_by_mode (run : list string -> outcome CompletedProcess)
    (network_status : string * string) (w : world) (ssid password : string)
    (manual_connect : option string) :
  let w' := (submit run network_status w ssid password manual_connect).1 in
  if truthy_opt manual_connect then
    config_store w' = Some (Document (JObject (config ssid (Some password))))
    /\ load_hotspot_config (config_store w') = Return (JObject (config ssid (Some password)))
    /\ (exists t, journal w' = (journal w ++ [Saved (config_store w'); ThreadStarted t])%list
                  /\ threads w' = (threads w ++ [t])%list)
    /\ (exists record : gmap string json,
          load_hotspot_config (config_store w') = Return (JObject record)
          /\ record !! "ssid" = Some (JString ssid)
          /\ record !! "password"
             = (if truthy password then Some (JString password) else None)
          /\ forall key, key <> "ssid" -> key <> "password" -> record !! key = None)
  else
    config_store w' = config_store w
    /\ load_hotspot_config (config_store w') = load_hotspot_config (config_store w)
    /\ threads w' = threads w.
Proof.
  cbv zeta. destruct (truthy_opt manual_connect) eqn:H.
  - rewrite submit_background by exact H. cbn [fst config_store journal threads].
    split; [reflexivity|]. split; [reflexivity|].
    split; [eexists; split; reflexivity|].
    exists (config ssid (Some password)). split; [reflexivity|].
    unfold config. destruct (truthy password).
    + split; [rewrite lookup_insert_ne by discriminate; apply lookup_singleton_eq|].
      split; [apply lookup_insert_eq|].
      intros key Hs Hp. rewrite lookup_insert_ne by congruence.
      apply lookup_singleton_ne. congruence.
    + split; [apply lookup_singleton_eq|].
      split; [apply lookup_singleton_ne; discriminate|].
      intros key Hs _. apply lookup_singleton_ne. congruence.
  - rewrite submit_immediate_world by exact H. repeat split.
Qed.

(** ** The background retry loop *)

Section SessionProps.
Variable tool : nat -> list string -> outcome CompletedProcess.
Variable elapsed : nat -> nat.
Variables ssid password : string.

Lemma loop_unfold (end_time k now : nat) :
  hotspot_scanning_loop tool elapsed ssid password end_time k now
  = if (now <? end_time)%nat then
      match attempt_connect_hotspot (tool k) ssid (Some password) with
      | Raise e =>
          {| attempts := [(now, Raise e)];
             finished_at := now + elapsed k;
             ending_of := Crashed e |}
      | Return result =>
          if contains "Success" result then
            {| attempts := [(now, Return result)];
               finished_at := now + elapsed k;
               ending_of := Connected |}
          else
            record_attempt (now, Return result)
              (hotspot_scanning_loop tool elapsed ssid password end_time (S k)
                 (now + elapsed k + 5))
      end
    else {| attempts := []; finished_at := now; ending_of := TimedOut |}.
Proof.
  rewrite hotspot_scanning_loop_equation_1.
  destruct (Nat.ltb_spec now end_time) as [Hlt | Hge];
    destruct (le_lt_dec end_time now) as [Hle | Hlt']; try lia; cbn;
    [| reflexivity].
  destruct (attempt_connect_hotspot (tool k) ssid (Some password)) as [result | e]; cbn;
    [| reflexivity].
  destruct (contains "Success" result); cbn; reflexivity.
Qed.

Lemma start_at_instant (t0 k : nat) :
  (forall j, elapsed j = 0) -> start_at elapsed t0 k = t0 + 5 * k.
Proof.
  intros H0. induction k as [|k IH]; simpl; [lia|]. rewrite IH, H0. lia.
Qed.

(** The loop when no attempt succeeds: attempts follow the timetable
    until the clock has reached [end_time]. *)
Lemma loop_all_fail (t0 end_time : nat) :
  (forall j, fails tool ssid password j) ->
  forall n k, end_time - start_at elapsed t0 k <= n ->
    exists m,
      starts (hotspot_scanning_loop tool elapsed ssid password end_time k
                (start_at elapsed t0 k))
      = start_at elapsed t0 <$> seq k m
      /\ finished_at (hotspot_scanning_loop tool elapsed ssid password end_time k
                        (start_at elapsed t0 k))
         = start_at elapsed t0 (k + m)
      /\ ending_of (hotspot_scanning_loop tool elapsed ssid password end_time k
                      (start_at elapsed t0 k))
         = TimedOut
      /\ (forall i, i < m -> start_at elapsed t0 (k + i) < end_time)
      /\ end_time <= start_at elapsed t0 (k + m).
Proof.
  intros Hfail n. induction n as [|n IH]; intros k Hn; rewrite loop_unfold.
  - destruct (Nat.ltb_spec (start_at elapsed t0 k) end_time) as [Hlt | Hge]; [lia|].
    exists 0. rewrite Nat.add_0_r. repeat split; [intros i Hi; lia | exact Hge].
  - destruct (Nat.ltb_spec (start_at elapsed t0 k) end_time) as [Hlt | Hge].
    + destruct (Hfail k) as (result & -> & ->).
      change (start_at elapsed t0 k + elapsed k + 5) with (start_at elapsed t0 (S k)).
      destruct (IH (S k)) as (m & Hs & Hf & He & Hlt' & Hge').
      { simpl. lia. }
      exists (S m). unfold starts in *. cbn [record_attempt attempts finished_at ending_of].
      rewrite fmap_cons, Hs. cbn [fst seq fmap list_fmap].
      replace (k + S m) with (S k + m) by lia.
      repeat split; [exact Hf | exact He | | exact Hge'].
      intros [|i] Hi.
      * rewrite Nat.add_0_r. exact Hlt.
      * replace (k + S i) with (S k + i) by lia. apply Hlt'. lia.
    + exists 0. rewrite Nat.add_0_r. repeat split; [intros i Hi; lia | exact Hge].
Qed.

(** The loop when attempt [n] is the first to succeed and starts in
    time: it is the last attempt, and nothing is slept after it. *)
Lemma loop_first_success (t0 end_time n : nat) :
  (forall j, j < n -> fails tool ssid password j) ->
  succeeds tool ssid password n ->
  start_at elapsed t0 n < end_time ->
  forall d k, n = k + d ->
    starts (hotspot_scanning_loop tool elapsed ssid password end_time k
              (start_at elapsed t0 k))
    = start_at elapsed t0 <$> seq k (S d)
    /\ finished_at (hotspot_scanning_loop tool elapsed ssid password end_time k
                      (start_at elapsed t0 k))
       = start_at elapsed t0 n + elapsed n
    /\ ending_of (hotspot_scanning_loop tool elapsed ssid password end_time k
                    (start_at elapsed t0 k))
       = Connected.
Proof.
  intros Hfail (result & Hr & Hs) Hn d.
  assert (Hmono : forall a b, a <= b -> start_at elapsed t0 a <= start_at elapsed t0 b).
  { intros a b Hab. induction Hab; simpl; lia. }
  induction d as [|d IH]; intros k Hk; rewrite loop_unfold.
  - rewrite Nat.add_0_r in Hk. subst k.
    destruct (Nat.ltb_spec (start_at elapsed t0 n) end_time); [|lia].
    rewrite Hr, Hs. repeat split.
  - assert (Hlt : start_at elapsed t0 k < end_time).
    { pose proof (Hmono k n). lia. }
    destruct (Nat.ltb_spec (start_at elapsed t0 k) end_time); [|lia].
    destruct (Hfail k) as (r & -> & ->); [lia|].
    change (start_at elapsed t0 k + elapsed k + 5) with (start_at elapsed t0 (S k)).
    destruct (IH (S k)) as (Hst & Hf & He); [lia|].
    unfold starts in *. cbn [record_attempt attempts finished_at ending_of].
    rewrite fmap_cons, Hst. repeat split; assumption.
Qed.

End SessionProps.

Example not_found_fails (ssid password : string) (k : nat) :
  fails tool_not_found ssid password k.
Proof. eexists. split; reflexivity. Qed.

Example instant_attempts :
  starts (hotspot_scanning tool_not_found (fun _ => 0) "HomeNet" "secret" 0)
  = [0; 5; 10; 15; 20; 25; 30; 35; 40; 45; 50; 55; 60; 65; 70; 75; 80; 85; 90; 95;
     100; 105; 110; 115].
Proof. reflexivity. Qed.

(** A failure that the tool reports on stdout makes the returned text
    start with "Success", so the loop stops at once. *)
Example stdout_failure_stops_loop :
  let log := hotspot_scanning
               (fun _ _ => Return {| stdout := "Error: Connection activation failed."; stderr := "" |})
               (fun _ => 3) "HomeNet" "secret" 0 in
  starts log = [0] /\ finished_at log = 3 /\ ending_of log = Connected.
Proof. repeat split. Qed.

(** The loop function on its own: [hotspot_scanning] makes its attempts
    one after the other. While the returned text lacks "Success", the next attempt
    starts five units after the previous one came back (at 0, 5, 10, ...
    only when attempts take no time); every attempt starts strictly before
    entry time + 120; the loop is left no earlier than entry time + 120
    and exactly five units after the last attempt came back, hence before
    entry time + 120 + the duration of the last attempt + 5. The first
    attempt whose text contains "Success" is the last one and the loop is
    left when it comes back, without sleeping. *)
Theorem retry_session_timing (tool : nat -> list string -> outcome CompletedProcess)
    (elapsed : nat -> nat) (ssid password : string) (t0 : nat) :
  let log := hotspot_scanning tool elapsed ssid password t0 in
  ((forall j, fails tool ssid password j) ->
     exists m,
       0 < m
       /\ starts log = start_at elapsed t0 <$> seq 0 m
       /\ (forall k, start_at elapsed t0 (S k) = start_at elapsed t0 k + elapsed k + 5)
       /\ (forall t, t ∈ starts log -> t < t0 + 120)
       /\ ending_of log = TimedOut
       /\ t0 + 120 <= finished_at log
       /\ finished_at log = start_at elapsed t0 (m - 1) + elapsed (m - 1) + 5
       /\ finished_at log < t0 + 120 + elapsed (m - 1) + 5)
  /\ ((forall j, fails tool ssid password j) -> (forall j, elapsed j = 0) ->
        starts log = (fun i => t0 + 5 * i) <$> seq 0 24
        /\ finished_at log = t0 + 120)
  /\ (forall n,
        (forall j, j < n -> fails tool ssid password j) ->
        succeeds tool ssid password n ->
        start_at elapsed t0 n < t0 + 120 ->
        starts log = start_at elapsed t0 <$> seq 0 (S n)
        /\ finished_at log = start_at elapsed t0 n + elapsed n
        /\ ending_of log = Connected).
Proof.
  cbv zeta. unfold hotspot_scanning.
  assert (Hall : (forall j, fails tool ssid password j) ->
            exists m,
              0 < m
              /\ starts (hotspot_scanning_loop tool elapsed ssid password (t0 + 120) 0 t0)
                 = start_at elapsed t0 <$> seq 0 m
              /\ finished_at (hotspot_scanning_loop tool elapsed ssid password (t0 + 120) 0 t0)
                 = start_at elapsed t0 m
              /\ ending_of (hotspot_scanning_loop tool elapsed ssid password (t0 + 120) 0 t0)
                 = TimedOut
              /\ (forall i, i < m -> start_at elapsed t0 i < t0 + 120)
              /\ t0 + 120 <= start_at elapsed t0 m).
  { intros Hfail.
    destruct (loop_all_fail tool elapsed ssid password t0 (t0 + 120) Hfail 120 0)
      as (m & Hs & Hf & He & Hlt & Hge); [simpl; lia|].
    cbn [start_at Nat.add] in *. exists m.
    repeat split; try assumption.
    destruct m; [simpl in Hge; lia | lia]. }
  split; [|split].
  - intros Hfail. destruct (Hall Hfail) as (m & Hm & Hs & Hf & He & Hlt & Hge).
    exists m. destruct m as [|m]; [lia|].
    replace (S m - 1) with m by lia.
    repeat split; try assumption; try lia.
    + intros t Ht. rewrite Hs in Ht. apply list_elem_of_fmap in Ht as (i & -> & Hi).
      apply elem_of_seq in Hi. apply Hlt. lia.
    + rewrite Hf. simpl. pose proof (Hlt m). lia.
  - intros Hfail H0. destruct (Hall Hfail) as (m & Hm & Hs & Hf & He & Hlt & Hge).
    destruct m as [|m]; [lia|].
    pose proof (Hlt m (Nat.lt_succ_diag_r m)) as Hlast.
    rewrite start_at_instant in Hlast, Hge by exact H0.
    assert (m = 23) by lia. subst m.
    rewrite Hs, Hf, start_at_instant by exact H0. split; [|lia].
    apply list_fmap_ext. intros i x _. apply start_at_instant, H0.
  - intros n Hfail Hsucc Hn.
    apply (loop_first_success tool elapsed ssid password t0 (t0 + 120) n Hfail Hsucc Hn n 0).
    reflexivity.
Qed.

Lemma retry_session_timing_witness :
  (forall j, fails tool_not_found "HomeNet" "secret" j)
  /\ (forall j, (fun _ : nat => 0) j = 0)
  /\ starts (hotspot_scanning tool_not_found (fun _ => 0) "HomeNet" "secret" 0)
     = (fun i => 0 + 5 * i) <$> seq 0 24
  /\ finished_at (hotspot_scanning tool_not_found (fun _ => 0) "HomeNet" "secret" 0) = 0 + 120.
Proof.
  split; [intros j; eexists; split; reflexivity|].
  split; [reflexivity|].
  apply (retry_session_timing tool_not_found (fun _ => 0) "HomeNet" "secret" 0).
  - intros j. eexists. split; reflexivity.
  - reflexivity.
Defined.

(** The loop function on its own, with attempts that take four units
    each and all fail: the second attempt starts at 9, not at 5, and the loop is left
    at 126, later than 120 plus one attempt. *)
Lemma retry_overruns_timeout :
  let log := hotspot_scanning tool_not_found (fun _ => 4) "HomeNet" "secret" 0 in
  (forall j, fails tool_not_found "HomeNet" "secret" j)
  /\ starts log = [0; 9; 18; 27; 36; 45; 54; 63; 72; 81; 90; 99; 108; 117]
  /\ finished_at log = 126
  /\ ~ finished_at log <= 120 + 4.
Proof.
  cbv zeta. split; [intros j; eexists; split; reflexivity|].
  split; [reflexivity|]. split; [reflexivity|].
  vm_compute. intros H. repeat (apply le_S_n in H). inversion H.
Qed.

(** * Further properties of the portal *)

(** ** Splitting *)

Lemma prefix_split (p s : string) :
  String.prefix p s = true -> exists rest, s = p +:+ rest.
Proof.
  revert s. induction p as [|c p IH]; intros s H.
  - exists s. reflexivity.
  - destruct s as [|d s]; [discriminate H|]. simpl in H.
    destruct (Ascii.ascii_dec c d) as [->|]; [|discriminate H].
    destruct (IH s H) as [rest ->]. exists rest. reflexivity.
Qed.

Lemma prefix_app (p rest : string) : String.prefix p (p +:+ rest) = true.
Proof.
  induction p as [|c p IH]; simpl; [destruct rest; reflexivity|].
  destruct (Ascii.ascii_dec c c); [exact IH | contradiction].
Qed.

Lemma contains_char_cons (c d : ascii) (s : string) :
  contains (String c "") (String d s) = Ascii.eqb d c || contains (String c "") s.
Proof.
  cbn [contains String.prefix].
  destruct (Ascii.ascii_dec c d) as [->|Hne].
  - rewrite Ascii.eqb_refl. destruct s; reflexivity.
  - destruct (Ascii.eqb_spec d c); [congruence | reflexivity].
Qed.

Lemma split_on_not_nil (sep : ascii) (s : string) : split_on sep s <> [].
Proof.
  destruct s as [|c s]; cbn [split_on]; [discriminate|].
  destruct (Ascii.eqb c sep); [discriminate|].
  destruct (split_on sep s); discriminate.
Qed.

(** A text without the separator is one piece. *)
Lemma split_on_none (sep : ascii) (s : string) :
  contains (String sep "") s = false -> split_on sep s = [s].
Proof.
  induction s as [|c s IH]; intros H; [reflexivity|].
  rewrite contains_char_cons in H. apply orb_false_iff in H as [Hc Hs].
  cbn [split_on]. rewrite Hc, (IH Hs). reflexivity.
Qed.

(** The first piece ends at the first separator. *)
Lemma split_on_app (sep : ascii) (a b : string) :
  contains (String sep "") a = false ->
  split_on sep (a +:+ String sep b) = a :: split_on sep b.
Proof.
  induction a as [|c a IH]; intros H.
  - simpl. rewrite Ascii.eqb_refl. reflexivity.
  - rewrite contains_char_cons in H. apply orb_false_iff in H as [Hc Ha].
    simpl. rewrite Hc, (IH Ha). reflexivity.
Qed.

(** The first piece of a split has no separator in it, and the text
    either is that piece or goes on with a separator after it. *)
Lemma split_on_head (sep : ascii) (s : string) :
  exists piece pieces,
    split_on sep s = piece :: pieces
    /\ contains (String sep "") piece = false
    /\ (s = piece \/ exists more, s = piece +:+ String sep more).
Proof.
  induction s as [|c s (piece & pieces & Hs & Hp & Hrest)].
  - exists "", []. repeat split. left. reflexivity.
  - cbn [split_on]. destruct (Ascii.eqb_spec c sep) as [->|Hne].
    + exists "", (split_on sep s). repeat split. right. exists s. reflexivity.
    + rewrite Hs. exists (String c piece), pieces. split; [reflexivity|]. split.
      * rewrite contains_char_cons, Hp. destruct (Ascii.eqb_spec c sep); [contradiction|reflexivity].
      * destruct Hrest as [-> | [more ->]]; [left; reflexivity|].
        right. exists more. reflexivity.
Qed.

(** ** The connectivity status *)

(** A line for the managed device that is marked active always has a
    third field. *)
Lemma active_line_ssid (rest : string) :
  exists ssid,
    split_on ":" ("wlan1:yes:" +:+ rest) !! 2%nat = Some ssid
    /\ contains ":" ssid = false
    /\ (rest = ssid \/ exists more, rest = ssid +:+ String ":" more).
Proof.
  destruct (split_on_head ":" rest) as (piece & pieces & Hs & Hp & Hrest).
  exists piece. split; [|split; assumption].
  change ("wlan1:yes:" +:+ rest) with ("wlan1" +:+ String ":" ("yes" +:+ String ":" rest)).
  rewrite split_on_app by reflexivity.
  rewrite split_on_app by reflexivity.
  rewrite Hs. reflexivity.
Qed.

Lemma scan_status_cases (ssid_output : list string) :
  scan_status ssid_output = ("offline", "")
  \/ exists ssid, scan_status ssid_output = ("online", ssid) /\ contains ":" ssid = false.
Proof.
  induction ssid_output as [|line rest IH]; [left; reflexivity|].
  cbn [scan_status]. destruct (String.prefix _ line) eqn:Hp; [|exact IH].
  apply prefix_split in Hp as [tail ->].
  destruct (active_line_ssid tail) as (ssid & Hs & Hc & _).
  change (WIFI_DEVICE +:+ ":yes:") with "wlan1:yes:". rewrite Hs.
  right. exists ssid. split; [reflexivity | exact Hc].
Qed.

(** X1: whatever the tool prints, and also when it cannot be run, the
    [/status] reply has exactly the fields status and ssid; the status is
    offline with an empty ssid, or online with an ssid that contains no
    colon. *)
Theorem status_reply_shape (run : list string -> outcome CompletedProcess) :
  dom (status run) = ({["status"; "ssid"]} : gset string)
  /\ ((status run !! "status" = Some "offline" /\ status run !! "ssid" = Some "")
      \/ exists ssid, status run !! "status" = Some "online"
                      /\ status run !! "ssid" = Some ssid
                      /\ contains ":" ssid = false).
Proof.
  unfold status, get_network_status.
  assert (H : forall st sd : string,
             dom (<["ssid" := sd]> ({["status" := st]} : gmap string string))
             = ({["status"; "ssid"]} : gset string)).
  { intros st sd. rewrite dom_insert_L, dom_singleton_L. set_solver. }
  destruct (run status_command) as [ssid_result | e].
  - destruct (scan_status_cases (split_on newline (strip (stdout ssid_result))))
      as [-> | (ssid & -> & Hc)].
    + split; [apply H|]. left. split; reflexivity.
    + split; [apply H|]. right. exists ssid. repeat split. exact Hc.
  - split; [apply H|]. left. split; reflexivity.
Qed.

(** X2: the first line that starts with "wlan1:yes:" decides: the ssid
    reported is what follows on that line up to the next colon, so a
    network name with a colon in it is cut there; lines for other devices
    or for inactive networks before it are skipped. *)
Theorem scan_status_first_active (before after : list string) (rest : string) :
  Forall (fun line => String.prefix "wlan1:yes:" line = false) before ->
  exists ssid,
    scan_status (before ++ ("wlan1:yes:" +:+ rest) :: after) = ("online", ssid)
    /\ contains ":" ssid = false
    /\ (rest = ssid \/ exists more, rest = ssid +:+ String ":" more).
Proof.
  intros Hb. destruct (active_line_ssid rest) as (ssid & Hs & Hc & Hr).
  exists ssid. split; [|split; assumption].
  induction Hb as [|line before Hl Hb IH].
  - cbn [app scan_status]. change (WIFI_DEVICE +:+ ":yes:") with "wlan1:yes:".
    rewrite prefix_app, Hs. reflexivity.
  - cbn [app scan_status]. change (WIFI_DEVICE +:+ ":yes:") with "wlan1:yes:".
    rewrite Hl. exact IH.
Qed.

Lemma scan_status_first_active_witness :
  Forall (fun line => String.prefix "wlan1:yes:" line = false) ["wlan0:yes:PoetryCameraSetup"; "wlan1:no:Cafe"]
  /\ exists ssid,
       scan_status (["wlan0:yes:PoetryCameraSetup"; "wlan1:no:Cafe"]
                    ++ ("wlan1:yes:" +:+ "Home:Net") :: ["wlan1:no:Other"])
       = ("online", ssid)
       /\ contains ":" ssid = false
       /\ ("Home:Net" = ssid \/ exists more, "Home:Net" = ssid +:+ String ":" more).
Proof.
  assert (H : Forall (fun line => String.prefix "wlan1:yes:" line = false)
                ["wlan0:yes:PoetryCameraSetup"; "wlan1:no:Cafe"])
    by (repeat constructor).
  split; [exact H|].
  exact (scan_status_first_active _ ["wlan1:no:Other"] "Home:Net" H).
Defined.

Example colon_in_ssid_is_cut :
  get_network_status
    (fun _ => Return {| stdout := "wlan1:yes:Home:Net" +:+ String newline ""; stderr := "" |})
  = ("online", "Home").
Proof. reflexivity. Qed.

Lemma scan_status_none_active (ssid_output : list string) :
  Forall (fun line => String.prefix "wlan1:yes:" line = false) ssid_output ->
  scan_status ssid_output = ("offline", "").
Proof.
  induction 1 as [|line rest Hl _ IH]; [reflexivity|].
  cbn [scan_status]. change (WIFI_DEVICE +:+ ":yes:") with "wlan1:yes:".
  rewrite Hl. exact IH.
Qed.

(** X3: the status is offline exactly when no line of the output starts
    with "wlan1:yes:"; the ssid is then empty. *)
Theorem scan_status_offline_iff (ssid_output : list string) :
  (scan_status ssid_output).1 = "offline"
  <-> Forall (fun line => String.prefix "wlan1:yes:" line = false) ssid_output.
Proof.
  split.
  - induction ssid_output as [|line rest IH]; intros H; [constructor|].
    cbn [scan_status] in H. change (WIFI_DEVICE +:+ ":yes:") with "wlan1:yes:" in H.
    destruct (String.prefix "wlan1:yes:" line) eqn:Hp.
    + apply prefix_split in Hp as [tail ->].
      destruct (active_line_ssid tail) as (ssid & Hs & _).
      rewrite Hs in H. discriminate H.
    + constructor; [exact Hp | exact (IH H)].
  - intros H. rewrite scan_status_none_active by exact H. reflexivity.
Qed.

(** ** The network list from the scan output *)

Lemma scan_line_no_newline (name : string) :
  contains (String newline "") ("SSID:" +:+ name) = contains (String newline "") name.
Proof.
  change ("SSID:" +:+ name)
    with (String "S" (String "S" (String "I" (String "D" (String ":" name))))).
  rewrite !contains_char_cons. reflexivity.
Qed.

Lemma scan_line_setup (name : string) :
  contains "PoetryCameraSetup" ("SSID:" +:+ name) = contains "PoetryCameraSetup" name.
Proof. reflexivity. Qed.

Lemma split_scan_output (names : list string) :
  Forall (fun name => contains (String newline "") name = false) names ->
  split_on newline (scan_output names)
  = (((fun name => "SSID:" +:+ name) <$> names) ++ [""])%list.
Proof.
  induction 1 as [|name names Hn _ IH]; [reflexivity|].
  cbn [scan_output foldr fmap list_fmap app].
  change (foldr (fun name rest => "SSID:" +:+ name +:+ String newline rest) "" names)
    with (scan_output names).
  rewrite <- IH.
  replace ("SSID:" +:+ name +:+ String newline (scan_output names))
    with (("SSID:" +:+ name) +:+ String newline (scan_output names))
    by reflexivity.
  apply split_on_app. rewrite scan_line_no_newline. exact Hn.
Qed.

(** X4: when the scan prints one "SSID:name" line per network, [index]
    renders the page, whatever the status query does, and the list on the
    page is the set of the names that are not empty and do not contain
    "PoetryCameraSetup"; the status on the page is the one that
    [get_network_status] gives. *)
Theorem index_lists_scanned_networks (check_output : list string -> checked_output)
    (run : list string -> outcome CompletedProcess) (version_info : string)
    (names : list string) :
  check_output scan_command = Output (scan_output names) ->
  Forall (fun name => contains (String newline "") name = false) names ->
  exists p : page,
    index check_output run version_info = Return (Rendered p)
    /\ page_ssids_list p
       = list_to_set
           (filter (fun name => name <> "" /\ contains "PoetryCameraSetup" name = false) names)
    /\ (page_internet_status p, page_ssid p) = get_network_status run
    /\ page_version p = version_info.
Proof.
  intros Hout Hnames. unfold index. rewrite Hout.
  destruct (get_network_status run) as [internet_status ssid].
  eexists. split; [reflexivity|]. cbn [page_ssids_list page_internet_status page_ssid page_version].
  split; [|split; reflexivity].
  rewrite split_scan_output by exact Hnames.
  apply set_eq. intros x.
  rewrite elem_of_unique_ssids_list, elem_of_list_to_set, list_elem_of_filter.
  split.
  - intros [Hx (line & Hl & Hc & ->)].
    apply elem_of_app in Hl as [Hl | Hl].
    + apply list_elem_of_fmap in Hl as (name & -> & Hin).
      rewrite scan_line_setup in Hc.
      change (drop_chars 5 ("SSID:" +:+ name)) with name in *. auto.
    + apply list_elem_of_singleton in Hl. subst line. contradiction Hx. reflexivity.
  - intros [[Hx Hc] Hin]. split; [exact Hx|].
    exists ("SSID:" +:+ x). split; [|split; [exact Hc | reflexivity]].
    apply elem_of_app. left. apply list_elem_of_fmap. exists x. auto.
Qed.

Lemma index_lists_scanned_networks_witness :
  (fun _ : list string => Output (scan_output ["HomeNet"; "PoetryCameraSetup"; ""; "HomeNet"]))
     scan_command
  = Output (scan_output ["HomeNet"; "PoetryCameraSetup"; ""; "HomeNet"])
  /\ Forall (fun name => contains (String newline "") name = false)
       ["HomeNet"; "PoetryCameraSetup"; ""; "HomeNet"]
  /\ exists p : page,
       index (fun _ => Output (scan_output ["HomeNet"; "PoetryCameraSetup"; ""; "HomeNet"]))
         (fun _ => Raise FileNotFoundError) "v1"
       = Return (Rendered p)
       /\ page_ssids_list p
          = list_to_set
              (filter (fun name => name <> "" /\ contains "PoetryCameraSetup" name = false)
                 ["HomeNet"; "PoetryCameraSetup"; ""; "HomeNet"])
       /\ (page_internet_status p, page_ssid p)
          = get_network_status (fun _ => Raise FileNotFoundError)
       /\ page_version p = "v1".
Proof.
  assert (H : Forall (fun name => contains (String newline "") name = false)
                ["HomeNet"; "PoetryCameraSetup"; ""; "HomeNet"])
    by (repeat constructor).
  split; [reflexivity|]. split; [exact H|].
  exact (index_lists_scanned_networks
           (fun _ => Output (scan_output ["HomeNet"; "PoetryCameraSetup"; ""; "HomeNet"]))
           (fun _ => Raise FileNotFoundError) "v1" _ eq_refl H).
Defined.

(** ** What the retry loop takes for a success *)

Lemma contains_success_error (s : string) :
  contains "Success" ("Error: " +:+ s) = contains "Success" s.
Proof. reflexivity. Qed.

(** X6: the loop's test ["Success" in result] holds exactly when stderr
    is empty and stdout is not, or when stderr itself contains "Success":
    any output on stdout alone stops the retries, whatever it says. *)
Theorem loop_success_test (p : CompletedProcess) :
  contains "Success" (attempt_message p)
  = if truthy (stderr p) then contains "Success" (stderr p) else truthy (stdout p).
Proof.
  unfold attempt_message. destruct (truthy (stderr p)).
  - apply contains_success_error.
  - destruct (truthy (stdout p)); reflexivity.
Qed.

(** X7: an output that the immediate path reports with status success
    also ends the retry loop; the loop, however, also ends on outputs
    that the immediate path reports as errors. *)
Theorem classified_success_stops_loop :
  (forall (out err : string) (r : gmap string string),
      respond (completed out err) = Return r ->
      r !! "status" = Some "success" ->
      contains "Success" (attempt_message {| stdout := out; stderr := err |}) = true)
  /\ exists (out err : string) (r : gmap string string),
       respond (completed out err) = Return r
       /\ r !! "status" = Some "error"
       /\ contains "Success" (attempt_message {| stdout := out; stderr := err |}) = true.
Proof.
  split.
  - intros out err r Hr Hs. rewrite loop_success_test. cbn [stderr stdout].
    destruct (truthy err) eqn:Herr.
    + rewrite respond_stderr in Hr by exact Herr.
      destruct (contains _ (lower err)); injection Hr as <-; vm_compute in Hs; discriminate Hs.
    + apply truthy_false in Herr. subst err.
      destruct (truthy out) eqn:Hout; [reflexivity|].
      apply truthy_false in Hout. subst out.
      vm_compute in Hr. injection Hr as <-. vm_compute in Hs. discriminate Hs.
  - exists "Error: Connection activation failed.", "". eexists.
    split; [reflexivity|]. split; reflexivity.
Qed.

Lemma classified_success_stops_loop_witness :
  respond (completed "Connection successfully activated" "")
  = Return (render (Success "Connection successfully activated"))
  /\ render (Success "Connection successfully activated") !! "status" = Some "success"
  /\ contains "Success"
       (attempt_message {| stdout := "Connection successfully activated"; stderr := "" |})
     = true.
Proof.
  split; [reflexivity|]. split; [reflexivity|].
  apply (proj1 classified_success_stops_loop "Connection successfully activated" ""
           (render (Success "Connection successfully activated"))); reflexivity.
Defined.

(** ** Every run of the retry loop *)

Section SessionRuns.
Variable tool : nat -> list string -> outcome CompletedProcess.
Variable elapsed : nat -> nat.
Variables ssid password : string.

Lemma start_at_le (t0 a b : nat) : a <= b -> start_at elapsed t0 a <= start_at elapsed t0 b.
Proof. intros Hab. induction Hab; simpl; lia. Qed.

(** The loop entered for attempt [k] on time: how many attempts follow,
    when they start, and that the loop is not left before it was entered. *)
Lemma loop_bounds (t0 end_time : nat) :
  forall n k, end_time - start_at elapsed t0 k <= 5 * n ->
    length (attempts (hotspot_scanning_loop tool elapsed ssid password end_time k
                        (start_at elapsed t0 k))) <= n
    /\ starts (hotspot_scanning_loop tool elapsed ssid password end_time k
                 (start_at elapsed t0 k))
       = start_at elapsed t0
           <$> seq k (length (attempts (hotspot_scanning_loop tool elapsed ssid password
                                          end_time k (start_at elapsed t0 k))))
    /\ Forall (fun t => t < end_time)
         (starts (hotspot_scanning_loop tool elapsed ssid password end_time k
                    (start_at elapsed t0 k)))
    /\ start_at elapsed t0 k
       <= finished_at (hotspot_scanning_loop tool elapsed ssid password end_time k
                         (start_at elapsed t0 k)).
Proof.
  induction n as [|n IH]; intros k Hn; rewrite loop_unfold.
  - destruct (Nat.ltb_spec (start_at elapsed t0 k) end_time) as [Hlt | Hge]; [lia|].
    cbn. repeat split; [lia | constructor | lia].
  - destruct (Nat.ltb_spec (start_at elapsed t0 k) end_time) as [Hlt | Hge];
      [| cbn; repeat split; [lia | constructor | lia]].
    destruct (attempt_connect_hotspot (tool k) ssid (Some password)) as [result | e];
      [| cbn; repeat split; [lia | repeat constructor; exact Hlt | lia]].
    destruct (contains "Success" result);
      [cbn; repeat split; [lia | repeat constructor; exact Hlt | lia] |].
    change (start_at elapsed t0 k + elapsed k + 5) with (start_at elapsed t0 (S k)).
    destruct (IH (S k)) as (Hlen & Hs & Hall & Hfin); [simpl; lia|].
    unfold starts in *. cbn [record_attempt attempts finished_at length].
    rewrite fmap_cons, Hs. cbn [fst seq fmap list_fmap].
    split; [lia|]. split; [reflexivity|]. split.
    + constructor; [exact Hlt|]. rewrite <- Hs. exact Hall.
    + pose proof (start_at_le t0 k (S k)). lia.
Qed.

(** The loop entered for attempt [k] on time: attempt [i] of the run is
    what call [k + i] of the tool gave, every attempt but the last one
    came back without "Success", and the way the loop was left matches
    its last attempt. *)
Lemma loop_outcome (t0 end_time : nat) :
  forall n k, end_time - start_at elapsed t0 k <= 5 * n ->
    (forall i t r,
        attempts (hotspot_scanning_loop tool elapsed ssid password end_time k
                    (start_at elapsed t0 k)) !! i = Some (t, r) ->
        r = attempt_connect_hotspot (tool (k + i)) ssid (Some password)
        /\ (S i < length (attempts (hotspot_scanning_loop tool elapsed ssid password
                                      end_time k (start_at elapsed t0 k))) ->
            exists text, r = Return text /\ contains "Success" text = false))
    /\ match ending_of (hotspot_scanning_loop tool elapsed ssid password end_time k
                          (start_at elapsed t0 k)) with
       | TimedOut =>
           end_time <= finished_at (hotspot_scanning_loop tool elapsed ssid password
                                      end_time k (start_at elapsed t0 k))
           /\ forall i t r,
                attempts (hotspot_scanning_loop tool elapsed ssid password end_time k
                            (start_at elapsed t0 k)) !! i = Some (t, r) ->
                exists text, r = Return text /\ contains "Success" text = false
       | Connected =>
           exists t text,
             last (attempts (hotspot_scanning_loop tool elapsed ssid password end_time k
                               (start_at elapsed t0 k))) = Some (t, Return text)
             /\ contains "Success" text = true
             /\ t < end_time
       | Crashed e =>
           exists t,
             last (attempts (hotspot_scanning_loop tool elapsed ssid password end_time k
                               (start_at elapsed t0 k))) = Some (t, Raise e)
             /\ t < end_time
       end.
Proof.
  induction n as [|n IH]; intros k Hn; rewrite loop_unfold.
  - destruct (Nat.ltb_spec (start_at elapsed t0 k) end_time) as [Hlt | Hge]; [lia|].
    cbn. split; [intros i t r Hi; destruct i; discriminate Hi|].
    split; [lia | intros i t r Hi; destruct i; discriminate Hi].
  - destruct (Nat.ltb_spec (start_at elapsed t0 k) end_time) as [Hlt | Hge];
      [| cbn; split; [intros i t r Hi; destruct i; discriminate Hi|];
         split; [lia | intros i t r Hi; destruct i; discriminate Hi]].
    destruct (attempt_connect_hotspot (tool k) ssid (Some password)) as [result | e] eqn:Hk.
    + destruct (contains "Success" result) eqn:Hs.
      * cbn. split.
        -- intros [|i] t r Hi; [|destruct i; discriminate Hi].
           injection Hi as <- <-. rewrite Nat.add_0_r, Hk. split; [reflexivity | lia].
        -- eexists _, _. repeat split; [exact Hs | exact Hlt].
      * change (start_at elapsed t0 k + elapsed k + 5) with (start_at elapsed t0 (S k)).
        destruct (IH (S k)) as [Hat Hend]; [simpl; lia|].
        cbn [record_attempt attempts finished_at ending_of length]. split.
        -- intros [|i] t r Hi.
           ++ injection Hi as <- <-. rewrite Nat.add_0_r, Hk. split; [reflexivity|].
              intros _. exists result. split; [reflexivity | exact Hs].
           ++ cbn in Hi. destruct (Hat i t r Hi) as [Hr Hnl].
              replace (k + S i) with (S k + i) by lia. split; [exact Hr|].
              intros Hl. apply Hnl. lia.
        -- destruct (ending_of _).
           ++ destruct Hend as (t & text & Hl & Hc & Ht). exists t, text.
              rewrite last_cons, Hl. repeat split; assumption.
           ++ destruct Hend as [Hf Hall]. split; [exact Hf|].
              intros [|i] t r Hi.
              ** injection Hi as <- <-. exists result. split; [reflexivity | exact Hs].
              ** exact (Hall i t r Hi).
           ++ destruct Hend as (t & Hl & Ht). exists t.
              rewrite last_cons, Hl. split; [reflexivity | exact Ht].
    + cbn. split.
      * intros [|i] t r Hi; [|destruct i; discriminate Hi].
        injection Hi as <- <-. rewrite Nat.add_0_r, Hk. split; [reflexivity | lia].
      * eexists. split; [reflexivity | exact Hlt].
Qed.

End SessionRuns.

(** X8: whatever the tool does and however long the attempts take, one
    run of [hotspot_scanning] makes at least one attempt and at most 24;
    the attempts start at the times of the timetable, all of them from the
    entry time on and before entry time + 120; the run does not end before
    it was entered. *)
Theorem session_attempts_bounded (tool : nat -> list string -> outcome CompletedProcess)
    (elapsed : nat -> nat) (ssid password : string) (t0 : nat) :
  let log := hotspot_scanning tool elapsed ssid password t0 in
  1 <= length (attempts log) <= 24
  /\ starts log = start_at elapsed t0 <$> seq 0 (length (attempts log))
  /\ Forall (fun t => t0 <= t < t0 + 120) (starts log)
  /\ t0 <= finished_at log.
Proof.
  cbv zeta. unfold hotspot_scanning.
  destruct (loop_bounds tool elapsed ssid password t0 (t0 + 120) 24 0)
    as (Hlen & Hs & Hall & Hfin); [simpl; lia|].
  cbn [start_at] in *.
  assert (Hone : 1 <= length (attempts (hotspot_scanning_loop tool elapsed ssid password
                                          (t0 + 120) 0 t0))).
  { rewrite loop_unfold. destruct (Nat.ltb_spec t0 (t0 + 120)); [|lia].
    destruct (attempt_connect_hotspot (tool 0) ssid (Some password)); [|cbn; lia].
    destruct (contains "Success" a); cbn; lia. }
  split; [lia|]. split; [exact Hs|]. split; [|exact Hfin].
  apply Forall_forall. intros t Ht. split.
  - rewrite Hs in Ht. apply list_elem_of_fmap in Ht as (i & -> & _).
    apply (start_at_le elapsed t0 0 i). lia.
  - rewrite Forall_forall in Hall. apply Hall, Ht.
Qed.

(** X9: in every run of [hotspot_scanning], attempt [i] is the [i]-th
    call of the tool with the same network name and password, and every
    attempt but the last came back without "Success". A run that ends by
    time-out ends at entry time + 120 or later after failures only; a run
    that ends connected ends with an attempt whose text contains
    "Success"; an exception raised by an attempt is not caught and ends
    the run with that attempt. *)
Theorem session_outcome (tool : nat -> list string -> outcome CompletedProcess)
    (elapsed : nat -> nat) (ssid password : string) (t0 : nat) :
  let log := hotspot_scanning tool elapsed ssid password t0 in
  (forall i t r,
      attempts log !! i = Some (t, r) ->
      r = attempt_connect_hotspot (tool i) ssid (Some password)
      /\ (S i < length (attempts log) ->
          exists text, r = Return text /\ contains "Success" text = false))
  /\ match ending_of log with
     | TimedOut =>
         t0 + 120 <= finished_at log
         /\ forall i t r,
              attempts log !! i = Some (t, r) ->
              exists text, r = Return text /\ contains "Success" text = false
     | Connected =>
         exists t text,
           last (attempts log) = Some (t, Return text)
           /\ contains "Success" text = true
           /\ t < t0 + 120
     | Crashed e =>
         exists t, last (attempts log) = Some (t, Raise e) /\ t < t0 + 120
     end.
Proof.
  cbv zeta. unfold hotspot_scanning.
  apply (loop_outcome tool elapsed ssid password t0 (t0 + 120) 24 0). simpl. lia.
Qed.

Example session_crash :
  let log := hotspot_scanning (fun _ _ => Raise FileNotFoundError) (fun _ => 1)
               "HomeNet" "secret" 0 in
  attempts log = [(0, Raise FileNotFoundError)]
  /\ ending_of log = Crashed FileNotFoundError.
Proof. split; reflexivity. Qed.

(** ** The states the process can reach *)

Lemma submit_threads_invariant (P : thread -> Prop)
    (run : list string -> outcome CompletedProcess) (network_status : string * string)
    (w : world) (ssid password : string) (manual_connect : option string) :
  (forall s p, P {| closure_ssid := s; closure_password := p;
                    thread_args := [s; p]; state := Alive |}) ->
  Forall P (threads w) ->
  Forall P (threads (submit run network_status w ssid password manual_connect).1).
Proof.
  intros Hnew Hw. unfold submit. destruct (truthy_opt manual_connect); cbn [fst threads].
  - apply Forall_app. split; [exact Hw|]. constructor; [apply Hnew | constructor].
  - exact Hw.
Qed.

(** X10: in every state that the process can reach from its start,
    each session thread was given exactly the two arguments (network
    name, password) and is either still waiting to run or has ended with
    TypeError: no background thread ever makes a connection attempt. *)
Theorem reachable_threads (w : world) :
  reachable w ->
  Forall (fun t =>
            thread_args t = [closure_ssid t; closure_password t]
            /\ (state t = Alive \/ state t = Exited (Raise TypeError)))
    (threads w).
Proof.
  revert w. apply rtc_ind_r; [constructor|]. intros w1 w2 _ Hstep IH.
  destruct Hstep as [run ns w ssid password mc | tool elapsed now w i t Hi Ha].
  - apply submit_threads_invariant; [|exact IH].
    intros s p. split; [reflexivity | left; reflexivity].
  - cbn [threads]. apply Forall_insert; [exact IH|].
    rewrite Forall_forall in IH.
    destruct (IH t) as [Hargs _]; [eapply list_elem_of_lookup_2; exact Hi|].
    unfold run_thread. cbn [thread_args closure_ssid closure_password state].
    split; [exact Hargs|]. right. rewrite Hargs. reflexivity.
Qed.

Lemma reachable_threads_witness :
  reachable (submit (fun _ => Raise FileNotFoundError) ("offline", "")
               initial_world "HomeNet" "secret" (Some "1")).1
  /\ Forall (fun t =>
               thread_args t = [closure_ssid t; closure_password t]
               /\ (state t = Alive \/ state t = Exited (Raise TypeError)))
       (threads (submit (fun _ => Raise FileNotFoundError) ("offline", "")
                   initial_world "HomeNet" "secret" (Some "1")).1).
Proof.
  assert (H : reachable (submit (fun _ => Raise FileNotFoundError) ("offline", "")
                           initial_world "HomeNet" "secret" (Some "1")).1).
  { eapply rtc_l; [apply step_submit | apply rtc_refl]. }
  split; [exact H | exact (reachable_threads _ H)].
Defined.



(** ** Requests in a row *)

Lemma serve_cons (run : list string -> outcome CompletedProcess)
    (network_status : string * string) (w : world) (r : request) (requests : list request) :
  serve run network_status w (r :: requests)
  = serve run network_status
      (submit run network_status w (req_ssid r) (req_password r) (req_manual_connect r)).1
      requests.
Proof. reflexivity. Qed.

Lemma last_background_cons (r : request) (requests : list request) :
  last_background (r :: requests)
  = match last_background requests with
    | Some r' => Some r'
    | None => if truthy_opt (req_manual_connect r) then Some r else None
    end.
Proof.
  unfold last_background. destruct (truthy_opt (req_manual_connect r)) eqn:Hr.
  - rewrite filter_cons_True by exact Hr. rewrite last_cons. reflexivity.
  - rewrite filter_cons_False by (rewrite Hr; discriminate).
    destruct (last _); reflexivity.
Qed.

(** X12: after any series of requests, the stored record is the one of
    the last request in background mode, whatever was stored before and
    whatever the immediate requests in between did; without a background
    request the store is untouched. The threads started are, in order,
    one per background request, each with the ssid and password of its
    request; the commands run are, in order, one connect command per
    immediate request, with the ssid and password of that request. *)
Theorem serve_last_writer_wins (run : list string -> outcome CompletedProcess)
    (network_status : string * string) (w : world) (requests : list request) :
  config_store (serve run network_status w requests)
  = match last_background requests with
    | Some r => Some (Document (JObject (config (req_ssid r) (Some (req_password r)))))
    | None => config_store w
    end
  /\ threads (serve run network_status w requests)
     = (threads w
        ++ ((fun r => session_thread (req_ssid r) (req_password r))
              <$> filter (fun r => truthy_opt (req_manual_connect r) = true) requests))%list
  /\ ran_commands (journal (serve run network_status w requests))
     = (ran_commands (journal w)
        ++ ((fun r => connection_command (req_ssid r) (Some (req_password r)))
              <$> filter (fun r => truthy_opt (req_manual_connect r) = false) requests))%list
  /\ length (journal (serve run network_status w requests))
     = length (journal w)
       + 2 * length (filter (fun r => truthy_opt (req_manual_connect r) = true) requests)
       + length (filter (fun r => truthy_opt (req_manual_connect r) = false) requests).
Proof.
  revert w. induction requests as [|r requests IH]; intros w.
  - cbn. rewrite !app_nil_r. repeat split; lia.
  - rewrite serve_cons, last_background_cons.
    destruct (IH (submit run network_status w (req_ssid r) (req_password r)
                    (req_manual_connect r)).1) as (Hc & Ht & Hr & Hj).
    rewrite Hc, Ht, Hr, Hj. unfold submit, ran_commands.
    destruct (truthy_opt (req_manual_connect r)) eqn:Hm; cbn [fst config_store threads journal].
    + rewrite (filter_cons_True _ r) by exact Hm.
      rewrite (filter_cons_False _ r) by (rewrite Hm; discriminate).
      rewrite omap_app, !length_app. cbn [omap list_omap event_command length fmap list_fmap].
      rewrite app_nil_r, <- app_assoc.
      split; [destruct (last_background requests); reflexivity|].
      split; [reflexivity|]. split; [reflexivity | lia].
    + rewrite (filter_cons_False _ r) by (rewrite Hm; discriminate).
      rewrite (filter_cons_True _ r) by exact Hm.
      rewrite omap_app, !length_app. cbn [omap list_omap event_command length fmap list_fmap].
      rewrite <- app_assoc.
      split; [destruct (last_background requests); reflexivity|].
      split; [reflexivity|]. split; [reflexivity | lia].
Qed.

Example serve_ex :
  load_hotspot_config
    (config_store
       (serve (fun _ => Raise FileNotFoundError) ("offline", "") initial_world
          [ {| req_ssid := "HomeNet"; req_password := "secret"; req_manual_connect := Some "1" |};
            {| req_ssid := "Cafe"; req_password := ""; req_manual_connect := Some "on" |};
            {| req_ssid := "Other"; req_password := "pw"; req_manual_connect := None |} ]))
  = Return (JObject {["ssid" := JString "Cafe"]}).
Proof. reflexivity. Qed.

(** ** The stored record *)

(** X13: the stored record tells network names apart and passwords
    apart, except that no password and the empty password give the same
    record. *)
Theorem config_injective (ssid ssid' : string) (password password' : option string) :
  config ssid password = config ssid' password'
  <-> ssid = ssid'
      /\ ((truthy_opt password = false /\ truthy_opt password' = false)
          \/ (truthy_opt password = true /\ password = password')).
Proof.
  assert (Hs : forall s p, config s p !! "ssid" = Some (JString s)).
  { intros s [p|]; unfold config; [destruct (truthy p)|];
      [rewrite lookup_insert_ne by discriminate| |]; apply lookup_singleton_eq. }
  assert (Hp : forall s p,
             config s p !! "password"
             = match p with
               | Some q => if truthy q then Some (JString q) else None
               | None => None
               end).
  { intros s [p|]; unfold config; [destruct (truthy p)|];
      [apply lookup_insert_eq | |]; apply lookup_singleton_ne; discriminate. }
  split.
  - intros H.
    assert (H1 := Hs ssid password). rewrite H, Hs in H1. injection H1 as <-.
    split; [reflexivity|].
    assert (H2 := Hp ssid' password). rewrite H, Hp in H2.
    destruct password as [p|], password' as [p'|]; cbn [truthy_opt] in *.
    + destruct (truthy p) eqn:Ht, (truthy p') eqn:Ht'; try discriminate H2.
      * injection H2 as ->. right. auto.
      * left. auto.
    + destruct (truthy p) eqn:Ht; [discriminate H2 | left; auto].
    + destruct (truthy p') eqn:Ht'; [discriminate H2 | left; auto].
    + left. auto.
  - intros [<- [[H1 H2] | [H1 <-]]]; [|reflexivity].
    unfold config. destruct password as [p|], password' as [p'|]; cbn [truthy_opt] in *;
      try rewrite H1; try rewrite H2; reflexivity.
Qed.

(** * The text wrapper *)

(** ** Appending, stripping and splitting into words *)

Lemma sapp_assoc (a b c : string) : (a +:+ b) +:+ c = a +:+ (b +:+ c).
Proof.
  induction a as [|x a IH]; [reflexivity|].
  change (String x ((a +:+ b) +:+ c) = String x (a +:+ (b +:+ c))). f_equal. exact IH.
Qed.

Lemma sapp_nil_r (a : string) : a +:+ "" = a.
Proof.
  induction a as [|x a IH]; [reflexivity|].
  change (String x (a +:+ "") = String x a). f_equal. exact IH.
Qed.

Lemma len_app (a b : string) : len (a +:+ b) = (len a + len b)%Z.
Proof.
  unfold len. induction a as [|x a IH];
    [change ("" +:+ b) with b; cbn [String.length]; lia|].
  cbn [String.length]. change (String x a +:+ b) with (String x (a +:+ b)).
  cbn [String.length]. lia.
Qed.

Lemma len_nonneg (a : string) : (0 <= len a)%Z.
Proof. unfold len. lia. Qed.

Lemma contains_char_app (c : ascii) (a b : string) :
  contains (String c "") (a +:+ b) = contains (String c "") a || contains (String c "") b.
Proof.
  induction a as [|x a IH]; [reflexivity|].
  change (String x a +:+ b) with (String x (a +:+ b)).
  rewrite !contains_char_cons, IH, orb_assoc. reflexivity.
Qed.

Lemma has_space_app (a b : string) : has_space (a +:+ b) = has_space a || has_space b.
Proof.
  induction a as [|x a IH]; [reflexivity|].
  change (String x a +:+ b) with (String x (a +:+ b)).
  cbn [has_space]. rewrite IH, orb_assoc. reflexivity.
Qed.

Lemma no_space_no_newline (s : string) : has_space s = false -> no_newline s.
Proof.
  unfold no_newline. induction s as [|c s IH]; intros H; [reflexivity|].
  cbn [has_space] in H. apply orb_false_iff in H as [Hc Hs].
  rewrite contains_char_cons, (IH Hs), orb_false_r.
  destruct (Ascii.eqb_spec c newline) as [->|]; [discriminate Hc | reflexivity].
Qed.

Lemma no_newline_app (a b : string) : no_newline a -> no_newline b -> no_newline (a +:+ b).
Proof. unfold no_newline. intros Ha Hb. rewrite contains_char_app, Ha, Hb. reflexivity. Qed.

Lemma lstrip_length (s : string) : String.length (lstrip s) <= String.length s.
Proof.
  induction s as [|c s IH]; [reflexivity|]. cbn [lstrip].
  destruct (is_space c); cbn [String.length]; lia.
Qed.

Lemma rstrip_length (s : string) : String.length (rstrip s) <= String.length s.
Proof.
  induction s as [|c s IH]; [reflexivity|]. cbn [rstrip].
  destruct (rstrip s) as [|d r]; [destruct (is_space c)|]; cbn [String.length] in *; lia.
Qed.

Lemma rstrip_snoc_space (s : string) (c : ascii) :
  is_space c = true -> rstrip (s +:+ String c "") = rstrip s.
Proof.
  intros Hc. induction s as [|d s IH]; [simpl; rewrite Hc; reflexivity|].
  change (String d s +:+ String c "") with (String d (s +:+ String c "")).
  cbn [rstrip]. rewrite IH. reflexivity.
Qed.

Lemma lstrip_snoc_blank (s : string) :
  lstrip (s +:+ " ") = lstrip s +:+ " " \/ lstrip (s +:+ " ") = "".
Proof.
  induction s as [|c s IH]; [right; reflexivity|].
  change (String c s +:+ " ") with (String c (s +:+ " ")). cbn [lstrip].
  destruct (is_space c); [exact IH | left; reflexivity].
Qed.

(** Stripping a text that ends with a blank removes that blank at least. *)
Lemma strip_snoc_blank_length (s : string) : (len (strip (s +:+ " ")) <= len s)%Z.
Proof.
  unfold strip, len. destruct (lstrip_snoc_blank s) as [-> | ->].
  - rewrite rstrip_snoc_space by reflexivity.
    pose proof (rstrip_length (lstrip s)). pose proof (lstrip_length s). lia.
  - cbn. lia.
Qed.

Lemma lstrip_char (c : ascii) (s : string) :
  contains (String c "") (lstrip s) = true -> contains (String c "") s = true.
Proof.
  induction s as [|d s IH]; [intros H; exact H|]. cbn [lstrip].
  destruct (is_space d); [|intros H; exact H].
  intros H. rewrite contains_char_cons, (IH H). apply orb_true_r.
Qed.

Lemma rstrip_char (c : ascii) (s : string) :
  contains (String c "") (rstrip s) = true -> contains (String c "") s = true.
Proof.
  induction s as [|d s IH]; [intros H; exact H|]. cbn [rstrip].
  rewrite contains_char_cons.
  destruct (rstrip s) as [|e r].
  - destruct (is_space d); [discriminate|].
    rewrite contains_char_cons. cbn [contains String.prefix]. rewrite orb_false_r.
    intros ->. reflexivity.
  - rewrite contains_char_cons. intros H. apply orb_true_iff in H as [-> | H];
      [reflexivity|]. rewrite (IH H). apply orb_true_r.
Qed.

Lemma strip_no_newline (s : string) : no_newline s -> no_newline (strip s).
Proof.
  unfold no_newline, strip. intros H.
  destruct (contains (String newline "") (rstrip (lstrip s))) eqn:Hc; [|reflexivity].
  apply rstrip_char, lstrip_char in Hc. congruence.
Qed.

Lemma cons_word_app (w : string) (a b : list string) :
  cons_word w (a ++ b) = (cons_word w a ++ b)%list.
Proof. destruct w; reflexivity. Qed.

(** White space between two texts separates their words. *)
Lemma split_ws_app_space (a b : string) (c : ascii) :
  is_space c = true ->
  split_ws (a +:+ String c b) = ((split_ws a).1, ((split_ws a).2 ++ split_words b)%list).
Proof.
  intros Hc. induction a as [|d a IH].
  - change ("" +:+ String c b) with (String c b). cbn [split_ws]. unfold split_words.
    destruct (split_ws b) as [w ws]. rewrite Hc. reflexivity.
  - change (String d a +:+ String c b) with (String d (a +:+ String c b)).
    cbn [split_ws]. rewrite IH. destruct (split_ws a) as [w ws]. cbn [fst snd].
    destruct (is_space d); [|reflexivity].
    cbn [fst snd]. rewrite cons_word_app. reflexivity.
Qed.

Lemma split_words_app_space (a b : string) (c : ascii) :
  is_space c = true ->
  split_words (a +:+ String c b) = (split_words a ++ split_words b)%list.
Proof.
  intros Hc. unfold split_words at 1 2. rewrite split_ws_app_space by exact Hc.
  destruct (split_ws a) as [w ws]. cbn [fst snd]. apply cons_word_app.
Qed.

Lemma split_ws_word (w : string) : has_space w = false -> split_ws w = (w, []).
Proof.
  induction w as [|c w IH]; intros H; [reflexivity|].
  cbn [has_space] in H. apply orb_false_iff in H as [Hc Hw].
  cbn [split_ws]. rewrite (IH Hw), Hc. reflexivity.
Qed.

Lemma split_words_word (w : string) : wordlike w -> split_words w = [w].
Proof.
  intros [Hne Hs]. unfold split_words. rewrite split_ws_word by exact Hs.
  destruct w; [contradiction | reflexivity].
Qed.

(** The words that [split_words] gives are words. *)
Lemma split_ws_wordlike (s : string) :
  has_space (split_ws s).1 = false /\ Forall wordlike (split_ws s).2.
Proof.
  induction s as [|c s [Hw Hws]]; [split; [reflexivity | constructor]|].
  cbn [split_ws]. destruct (split_ws s) as [w ws]. cbn [fst snd] in *.
  destruct (is_space c) eqn:Hc; cbn [fst snd].
  - split; [reflexivity|]. destruct w; [exact Hws|].
    constructor; [split; [discriminate | exact Hw] | exact Hws].
  - split; [cbn [has_space]; rewrite Hc, Hw; reflexivity | exact Hws].
Qed.

Lemma split_words_wordlike (s : string) : Forall wordlike (split_words s).
Proof.
  unfold split_words. destruct (split_ws_wordlike s) as [Hw Hws].
  destruct (split_ws s) as [w ws]. cbn [fst snd] in *.
  destruct w; [exact Hws|]. constructor; [split; [discriminate | exact Hw] | exact Hws].
Qed.

Lemma lstrip_words (s : string) : split_words (lstrip s) = split_words s.
Proof.
  induction s as [|c s IH]; [reflexivity|]. cbn [lstrip].
  destruct (is_space c) eqn:Hc; [|reflexivity].
  rewrite IH. unfold split_words. cbn [split_ws].
  destruct (split_ws s) as [w ws]. rewrite Hc. reflexivity.
Qed.

Lemma rstrip_split_ws (s : string) : split_ws (rstrip s) = split_ws s.
Proof.
  induction s as [|c s IH]; [reflexivity|]. cbn [rstrip].
  destruct (rstrip s) as [|d r] eqn:Hr.
  - cbn [split_ws] in *. rewrite <- IH.
    destruct (is_space c) eqn:Hc; [reflexivity|]. cbn [split_ws]. rewrite Hc. reflexivity.
  - cbn [split_ws] in *. rewrite <- IH. reflexivity.
Qed.

Lemma strip_words (s : string) : split_words (strip s) = split_words s.
Proof.
  unfold strip. rewrite <- (lstrip_words s). unfold split_words.
  rewrite rstrip_split_ws. reflexivity.
Qed.

Lemma indent_words (s : string) : split_words (indent +:+ s) = split_words s.
Proof.
  unfold split_words. change (indent +:+ s) with (String " " (String " " (String " " s))).
  cbn [split_ws]. destruct (split_ws s) as [w ws]. reflexivity.
Qed.

Lemma rstrip_word (w : string) : has_space w = false -> rstrip w = w.
Proof.
  induction w as [|c w IH]; intros H; [reflexivity|].
  cbn [has_space] in H. apply orb_false_iff in H as [Hc Hw].
  cbn [rstrip]. rewrite (IH Hw), Hc. destruct w; reflexivity.
Qed.

Lemma strip_word_blank (w : string) : wordlike w -> strip (w +:+ " ") = w.
Proof.
  intros [Hne Hs]. unfold strip. destruct w as [|c w]; [contradiction|].
  cbn [has_space] in Hs. apply orb_false_iff in Hs as [Hc Hw].
  change (String c w +:+ " ") with (String c (w +:+ " ")). cbn [lstrip]. rewrite Hc.
  change (String c (w +:+ " ")) with (String c w +:+ " ").
  rewrite rstrip_snoc_space by reflexivity.
  apply rstrip_word. cbn [has_space]. rewrite Hc, Hw. reflexivity.
Qed.

(** ** Whole lines *)

Lemma unlines_app (ls ls' : list string) :
  unlines (ls ++ ls') = unlines ls +:+ unlines ls'.
Proof.
  induction ls as [|l ls IH]; [reflexivity|].
  cbn [app unlines foldr]. change (foldr _ "" (ls ++ ls')) with (unlines (ls ++ ls')).
  change (foldr _ "" ls) with (unlines ls). rewrite IH, sapp_assoc. reflexivity.
Qed.

Lemma unlines_snoc (ls : list string) (l : string) :
  unlines ls +:+ (l +:+ String newline "") = unlines (ls ++ [l]).
Proof. rewrite unlines_app. reflexivity. Qed.

Lemma split_unlines (ls : list string) :
  Forall no_newline ls -> split_on newline (unlines ls) = (ls ++ [""])%list.
Proof.
  induction 1 as [|l ls Hl _ IH]; [reflexivity|].
  cbn [unlines foldr app]. change (foldr _ "" ls) with (unlines ls).
  rewrite <- IH. apply split_on_app. exact Hl.
Qed.

Lemma words_unlines (ls : list string) :
  split_words (unlines ls) = flat_map split_words ls.
Proof.
  induction ls as [|l ls IH]; [reflexivity|].
  cbn [unlines foldr flat_map]. change (foldr _ "" ls) with (unlines ls).
  rewrite split_words_app_space by reflexivity. rewrite IH. reflexivity.
Qed.

(** The words of a text are the words of its lines. *)
Lemma words_by_line (s : string) :
  flat_map split_words (split_on newline s) = split_words s.
Proof.
  assert (H : forall s, exists p ps,
             split_on newline s = p :: ps
             /\ (split_ws p).1 = (split_ws s).1
             /\ (split_ws s).2 = ((split_ws p).2 ++ flat_map split_words ps)%list).
  { clear s. induction s as [|c s (p & ps & Hs & Hw & Hws)].
    - exists "", []. repeat split.
    - cbn [split_on split_ws]. destruct (Ascii.eqb_spec c newline) as [->|Hne].
      + exists "", (split_on newline s). split; [reflexivity|].
        destruct (split_ws s) as [w ws] eqn:Hsw. cbn [fst snd] in *.
        change (is_space newline) with true. cbn [fst snd split_ws app].
        split; [reflexivity|]. rewrite Hs. cbn [flat_map]. unfold split_words at 1.
        destruct (split_ws p) as [wp wsp]. cbn [fst snd] in *. subst wp ws.
        apply cons_word_app.
      + rewrite Hs. exists (String c p), ps. split; [reflexivity|].
        cbn [split_ws]. destruct (split_ws s) as [w ws], (split_ws p) as [wp wsp].
        cbn [fst snd] in *. subst wp ws.
        destruct (is_space c); cbn [fst snd]; [|split; reflexivity].
        split; [reflexivity|]. apply cons_word_app. }
  destruct (H s) as (p & ps & Hs & Hw & Hws). rewrite Hs. cbn [flat_map].
  unfold split_words at 1 3. destruct (split_ws s) as [w ws], (split_ws p) as [wp wsp].
  cbn [fst snd] in *. subst wp ws. symmetry. apply cons_word_app.
Qed.

(** ** The loop over the words *)

Lemma flushed_line (st : wrap_state) :
  finished_line st = flushed st +:+ String newline "".
Proof.
  unfold finished_line, flushed. destruct (line_start st); [reflexivity|].
  rewrite sapp_assoc. reflexivity.
Qed.

Lemma flushed_words (st : wrap_state) : split_words (flushed st) = split_words (current_line st).
Proof.
  unfold flushed. destruct (line_start st); [|rewrite indent_words]; apply strip_words.
Qed.

Lemma flushed_no_newline (st : wrap_state) :
  no_newline (current_line st) -> no_newline (flushed st).
Proof.
  intros H. unfold flushed. destruct (line_start st); [apply strip_no_newline, H|].
  apply no_newline_app; [reflexivity | apply strip_no_newline, H].
Qed.

Lemma flushed_bound (line_length : Z) (st : wrap_state) (ls : list string) :
  wrap_bound line_length st ls -> (len (flushed st) <= line_length)%Z.
Proof.
  intros [_ H]. unfold flushed. destruct (line_start st); [exact H|].
  rewrite len_app. change (len indent) with 3%Z. lia.
Qed.

Lemma shaped_words (cur w : string) :
  cur = "" \/ (exists body, cur = body +:+ " ") ->
  wordlike w ->
  split_words (cur +:+ w +:+ " ") = (split_words cur ++ [w])%list.
Proof.
  intros Hcur Hw.
  assert (Hone : split_words (w +:+ " ") = [w]).
  { rewrite (split_words_app_space w "") by reflexivity.
    rewrite (split_words_word w Hw). reflexivity. }
  destruct Hcur as [-> | [body ->]]; [exact Hone|].
  rewrite sapp_assoc. change (" " +:+ w +:+ " ") with (String " " (w +:+ " ")).
  rewrite (split_words_app_space body (w +:+ " ")) by reflexivity. rewrite Hone.
  change (body +:+ " ") with (body +:+ String " " "").
  rewrite (split_words_app_space body "") by reflexivity.
  change (split_words "") with (@nil string). rewrite app_nil_r. reflexivity.
Qed.

(** One word more: the invariant is kept, the lines so far stay, the
    word joins the words laid out, and the bound is kept when the word is
    short enough. *)
Lemma wrap_word_step (line_length : Z) (st : wrap_state) (ls : list string) (w : string) :
  wrap_inv st ls -> wordlike w ->
  exists new,
    wrap_inv (wrap_word line_length st w) (ls ++ new)
    /\ (flat_map split_words (ls ++ new)
        ++ split_words (current_line (wrap_word line_length st w)))%list
       = (flat_map split_words ls ++ split_words (current_line st) ++ [w])%list
    /\ ((len w <= line_length - 3)%Z -> wrap_bound line_length st ls ->
        wrap_bound line_length (wrap_word line_length st w) (ls ++ new)).
Proof.
  intros (Hwt & Hls & Hcur & Hshape) Hw. unfold wrap_word.
  change indent_length with 3%Z.
  destruct (Z.leb_spec (len (current_line st) + len w)
              (if line_start st then line_length else (line_length - 3)%Z)) as [Hfit | Hover].
  - exists []. rewrite app_nil_r. cbn [wrapped_text current_line line_start].
    split; [|split].
    + split; [exact Hwt|]. split; [exact Hls|]. split.
      * apply no_newline_app; [exact Hcur|].
        apply no_newline_app; [apply no_space_no_newline, Hw | reflexivity].
      * right. exists (current_line st +:+ w). apply eq_sym, sapp_assoc.
    + rewrite shaped_words by assumption. reflexivity.
    + intros _ [Hb _]. split; [exact Hb|]. cbn [current_line line_start].
      rewrite <- sapp_assoc. etransitivity; [apply strip_snoc_blank_length|].
      rewrite len_app. exact Hfit.
  - exists [flushed st]. cbn [wrapped_text current_line line_start].
    split; [|split].
    + split; [rewrite Hwt, flushed_line; apply unlines_snoc|].
      split; [apply Forall_app; split;
                [exact Hls | constructor; [apply flushed_no_newline, Hcur | constructor]]|].
      split; [apply no_newline_app; [apply no_space_no_newline, Hw | reflexivity]|].
      right. exists w. reflexivity.
    + rewrite flat_map_app. cbn [flat_map]. rewrite app_nil_r, flushed_words.
      rewrite (split_words_app_space w "") by reflexivity.
      rewrite (split_words_word w Hw).
      change (split_words "") with (@nil string). rewrite <- !app_assoc. reflexivity.
    + intros Hlen Hb. split.
      * apply Forall_app. split; [apply Hb|].
        constructor; [eapply flushed_bound; exact Hb | constructor].
      * cbn [current_line line_start]. rewrite strip_word_blank by exact Hw. exact Hlen.
Qed.

Lemma wrap_words_fold (line_length : Z) (words : list string) :
  Forall wordlike words ->
  forall (st : wrap_state) (ls : list string),
    wrap_inv st ls ->
    exists new,
      wrap_inv (foldl (wrap_word line_length) st words) (ls ++ new)
      /\ (flat_map split_words (ls ++ new)
          ++ split_words (current_line (foldl (wrap_word line_length) st words)))%list
         = (flat_map split_words ls ++ split_words (current_line st) ++ words)%list
      /\ (Forall (fun w => (len w <= line_length - 3)%Z) words ->
          wrap_bound line_length st ls ->
          wrap_bound line_length (foldl (wrap_word line_length) st words) (ls ++ new)).
Proof.
  induction 1 as [|w words Hw _ IH]; intros st ls Hinv.
  - exists []. rewrite !app_nil_r. cbn [foldl].
    split; [exact Hinv|]. split; [reflexivity|]. intros _ Hb. exact Hb.
  - destruct (wrap_word_step line_length st ls w Hinv Hw) as (new1 & Hinv1 & Hw1 & Hb1).
    destruct (IH _ _ Hinv1) as (new2 & Hinv2 & Hw2 & Hb2).
    exists (new1 ++ new2)%list. rewrite app_assoc. cbn [foldl].
    split; [exact Hinv2|]. split.
    + rewrite Hw2, app_assoc, Hw1, <- !app_assoc. reflexivity.
    + intros Hall Hb. apply Forall_cons in Hall as [Hlw Hall].
      apply Hb2; [exact Hall|]. apply Hb1; assumption.
Qed.

(** ** The loop over the lines *)

Lemma wrap_line_lines (line_length : Z) (ls : list string) (line : string) :
  Forall no_newline ls ->
  exists new,
    wrap_line line_length (unlines ls) line = unlines (ls ++ new)
    /\ Forall no_newline (ls ++ new)
    /\ 1 <= length new
    /\ flat_map split_words (ls ++ new) = (flat_map split_words ls ++ split_words line)%list
    /\ ((0 <= line_length)%Z ->
        Forall (fun w => (len w <= line_length - 3)%Z) (split_words line) ->
        Forall (fun l => (len l <= line_length)%Z) ls ->
        Forall (fun l => (len l <= line_length)%Z) (ls ++ new)).
Proof.
  intros Hls. unfold wrap_line.
  destruct (wrap_words_fold line_length (split_words line) (split_words_wordlike line)
              {| wrapped_text := unlines ls; current_line := ""; line_start := true |} ls)
    as (new & (Hwt & Hnl & Hcur & _) & Hwords & Hbound).
  { split; [reflexivity|]. split; [exact Hls|]. split; [reflexivity | left; reflexivity]. }
  set (st := foldl (wrap_word line_length) _ _) in *.
  exists (new ++ [flushed st])%list. rewrite app_assoc.
  split; [rewrite Hwt, flushed_line; apply unlines_snoc|].
  split; [apply Forall_app; split;
            [exact Hnl | constructor; [apply flushed_no_newline, Hcur | constructor]]|].
  split; [rewrite length_app; cbn [length]; lia|].
  split.
  - rewrite flat_map_app. cbn [flat_map]. rewrite app_nil_r, flushed_words, Hwords.
    reflexivity.
  - intros HL Hw Hb.
    assert (Hst : wrap_bound line_length st (ls ++ new)).
    { apply Hbound; [exact Hw|]. split; [exact Hb|]. cbn. unfold len. cbn. lia. }
    apply Forall_app. split; [apply Hst|].
    constructor; [eapply flushed_bound; exact Hst | constructor].
Qed.

Lemma wrap_lines_fold (line_length : Z) (lines : list string) :
  forall ls : list string,
    Forall no_newline ls ->
    exists new,
      foldl (wrap_line line_length) (unlines ls) lines = unlines (ls ++ new)
      /\ Forall no_newline (ls ++ new)
      /\ length lines <= length new
      /\ flat_map split_words (ls ++ new)
         = (flat_map split_words ls ++ flat_map split_words lines)%list
      /\ ((0 <= line_length)%Z ->
          Forall (fun w => (len w <= line_length - 3)%Z) (flat_map split_words lines) ->
          Forall (fun l => (len l <= line_length)%Z) ls ->
          Forall (fun l => (len l <= line_length)%Z) (ls ++ new)).
Proof.
  induction lines as [|line lines IH]; intros ls Hls.
  - exists []. rewrite !app_nil_r. cbn [foldl flat_map length].
    split; [reflexivity|]. split; [exact Hls|]. split; [lia|].
    split; [reflexivity|]. intros _ _ Hb. exact Hb.
  - destruct (wrap_line_lines line_length ls line Hls) as (new1 & H1 & Hnl1 & Hlen1 & Hw1 & Hb1).
    destruct (IH _ Hnl1) as (new2 & H2 & Hnl2 & Hlen2 & Hw2 & Hb2).
    exists (new1 ++ new2)%list. rewrite app_assoc. cbn [foldl flat_map length].
    rewrite H1. split; [exact H2|]. split; [exact Hnl2|].
    split; [rewrite length_app; lia|]. split.
    + rewrite Hw2, Hw1, <- app_assoc. reflexivity.
    + intros HL Hw Hb. apply Forall_app in Hw as [Hwl Hwr].
      apply Hb2; [exact HL | exact Hwr |]. apply Hb1; assumption.
Qed.

(** X14: the wrapped text is made of whole lines, each ended by a
    newline, and every line of the input gives at least one line of the
    output; splitting the output at the newlines gives these lines and an
    empty piece after the last newline. *)
Theorem wrap_text_lines (text : string) (line_length : Z) :
  exists out : list string,
    wrap_text text line_length = unlines out
    /\ Forall no_newline out
    /\ length (split_on newline text) <= length out
    /\ split_on newline (wrap_text text line_length) = (out ++ [""])%list.
Proof.
  unfold wrap_text.
  destruct (wrap_lines_fold line_length (split_on newline text) [])
    as (out & Hout & Hnl & Hlen & _); [constructor|].
  cbn [app] in *. change (unlines []) with "" in Hout.
  exists out. rewrite Hout. repeat split; try assumption.
  apply split_unlines, Hnl.
Qed.

(** X15: wrapping changes white space only: the words of the wrapped
    text are the words of the text, in the same order, for every line
    length. *)
Theorem wrap_text_words (text : string) (line_length : Z) :
  split_words (wrap_text text line_length) = split_words text.
Proof.
  unfold wrap_text.
  destruct (wrap_lines_fold line_length (split_on newline text) [])
    as (out & Hout & _ & _ & Hw & _); [constructor|].
  cbn [app flat_map] in *. change (unlines []) with "" in Hout.
  rewrite Hout, words_unlines, Hw. apply words_by_line.
Qed.

(** X16: when no word of the text is longer than the line length minus
    the three blanks of the indent, no line of the wrapped text is longer
    than the line length. *)
Theorem wrap_text_fits (text : string) (line_length : Z) :
  (0 <= line_length)%Z ->
  Forall (fun w => (len w <= line_length - 3)%Z) (split_words text) ->
  Forall (fun l => (len l <= line_length)%Z) (split_on newline (wrap_text text line_length)).
Proof.
  intros HL Hw. unfold wrap_text.
  destruct (wrap_lines_fold line_length (split_on newline text) [])
    as (out & Hout & Hnl & _ & _ & Hb); [constructor|].
  cbn [app] in *. change (unlines []) with "" in Hout.
  rewrite Hout, split_unlines by exact Hnl.
  apply Forall_app. split.
  - apply Hb; [exact HL | rewrite words_by_line; exact Hw | constructor].
  - constructor; [exact HL | constructor].
Qed.

Lemma wrap_text_fits_witness :
  (0 <= 12)%Z
  /\ Forall (fun w => (len w <= 12 - 3)%Z) (split_words "the quick brown fox jumps over")
  /\ Forall (fun l => (len l <= 12)%Z)
       (split_on newline (wrap_text "the quick brown fox jumps over" 12)).
Proof.
  assert (H : Forall (fun w => (len w <= 12 - 3)%Z)
                (split_words "the quick brown fox jumps over"))
    by (repeat constructor; vm_compute; discriminate).
  split; [lia|]. split; [exact H|].
  apply (wrap_text_fits "the quick brown fox jumps over" 12); [lia | exact H].
Defined.

(** X17: a single word that is longer than the line length is not
    broken: the output is an empty line followed by the indented word. *)
Theorem wrap_text_long_word (w : string) (line_length : Z) :
  wordlike w ->
  (line_length < len w)%Z ->
  wrap_text w line_length = unlines [""; indent +:+ w].
Proof.
  intros Hw Hlong. unfold wrap_text.
  rewrite split_on_none by (apply no_space_no_newline, Hw).
  cbn [foldl]. unfold wrap_line. rewrite split_words_word by exact Hw.
  cbn [foldl]. unfold wrap_word. cbn [current_line line_start wrapped_text].
  change (len "") with 0%Z.
  destruct (Z.leb_spec (0 + len w) line_length) as [Hfit | _]; [lia|].
  unfold finished_line. cbn [current_line line_start wrapped_text].
  rewrite strip_word_blank by exact Hw. reflexivity.
Qed.

Lemma wrap_text_long_word_witness :
  wordlike "supercalifragilistic"
  /\ (10 < len "supercalifragilistic")%Z
  /\ wrap_text "supercalifragilistic" 10 = unlines [""; indent +:+ "supercalifragilistic"].
Proof.
  assert (H : wordlike "supercalifragilistic") by (split; [discriminate | reflexivity]).
  split; [exact H|]. split; [reflexivity|].
  apply (wrap_text_long_word "supercalifragilistic" 10 H). reflexivity.
Defined.
